(** * blobo: the blob-server storage node and the API server

    A shallow embedding of [storage-api.go] (the filesystem storage class)
    and of [cmd_api_server.go] (the API server's upload and download
    handlers and the blob-server's handlers), followed by the properties
    of the design document that concern them.

    Conventions.  A Go [string] and a Go [[]byte] are both sequences of
    bytes and the sources convert freely between the two; both are
    embedded as [string].  A value that can be [nil] in the sources
    (a [*[]byte], a map, an [error]) is an [option].  Functions of the Go
    standard library whose result is only passed along (printing with a
    format, JSON coding, the SHA-1 digest, header-key canonicalisation,
    the iteration order of a map) are variables of the section: every
    statement holds for whatever they compute. *)

From Stdlib Require Import Ascii String.
From stdpp Require Import gmap strings list sorting pretty.

Local Open Scope string_scope.

(** ** Pieces of the Go standard library that the sources compute with *)

Module Strings.

(** [s[i:]] *)
Definition from (i : nat) (s : string) : string :=
  String.substring i (String.length s - i) s.

(** [s[0:j]] *)
Definition upto (j : nat) (s : string) : string := String.substring 0 j s.

(** [strings.HasSuffix]:
    [len(s) >= len(suffix) && s[len(s)-len(suffix):] == suffix]. *)
Definition HasSuffix (s suffix : string) : bool :=
  (String.length suffix <=? String.length s)%nat &&
  String.eqb (from (String.length s - String.length suffix) s) suffix.

(** Whether the byte [c] occurs in [s]. *)
Fixpoint contains (c : ascii) (s : string) : bool :=
  match s with
  | EmptyString => false
  | String a r => Ascii.eqb a c || contains c r
  end.

End Strings.

Module Filepath.

Definition IsPathSeparator (c : ascii) : bool := Ascii.eqb c "/"%char.

(** The loop of [filepath.Ext], [n] being [i + 1]:
    [for i := len(path) - 1; i >= 0 && !os.IsPathSeparator(path[i]); i--
       { if path[i] == '.' { return path[i:] } }], then the empty string. *)
Fixpoint Ext_loop (path : string) (n : nat) : string :=
  match n with
  | O => EmptyString
  | S i =>
      match String.get i path with
      | Some c =>
          if IsPathSeparator c then EmptyString
          else if Ascii.eqb c "."%char then Strings.from i path
          else Ext_loop path i
      | None => EmptyString
      end
  end.

Definition Ext (path : string) : string := Ext_loop path (String.length path).

End Filepath.

Module Regexp.

(** A byte of the class [[a-z0-9]]. *)
Definition id_byte (c : ascii) : bool :=
  let n := nat_of_ascii c in
  ((97 <=? n) && (n <=? 122) || (48 <=? n) && (n <=? 57))%nat.

Fixpoint all_id_bytes (s : string) : bool :=
  match s with
  | EmptyString => true
  | String c r => id_byte c && all_id_bytes r
  end.

(** [MatchString] of the expression [^([a-z0-9]+)$] that both handlers
    of the blob-server compile: the whole text is a non-empty run of
    bytes of the class. *)
Definition MatchString (s : string) : bool :=
  match s with
  | EmptyString => false
  | String _ _ => all_id_bytes s
  end.

End Regexp.

(** The byte [0x22], for the JSON texts the handlers print. *)
Definition dq : string := String "034"%char EmptyString.

(** ** The data directory of a blob-server

    [FilesystemStorage] addresses the file of an [id] as [id] itself once
    [Setup] has changed into, and rooted the process at, the data
    directory ([cwd]), and as [filepath.Join(prefix, id)] otherwise.
    Either way the path names the entry [id] of the data directory (the
    handlers pass on ids of [[a-z0-9]+] only), so the directory is a
    finite map from entry names to entries; an entry is a regular file or
    a directory, which can be found but neither read nor written as a
    file.  A name longer than [NAME_MAX] bytes is the name of no entry:
    every call on it fails with [ENAMETOOLONG], and so does a write under
    the empty name, with [ENOENT].  Targets with a separator or a dot
    component are not resolved as paths.  The log records every call made
    to the operating system. *)

Inductive entry : Type :=
  | File (data : string)
  | Dir.

Inductive syscall : Type :=
  | Stat (target : string)
  | ReadFile (target : string)
  | WriteFile (target : string) (data : string)
  | ReadDir.

Record Disk : Type := mkDisk {
  files : gmap string entry;
  oplog : list syscall
}.

(** Computations over the disk. *)
Definition IO (A : Type) : Type := Disk -> A * Disk.

Definition ret {A} (a : A) : IO A := fun d => (a, d).

Definition bind {A B} (m : IO A) (k : A -> IO B) : IO B :=
  fun d => let (a, d') := m d in k a d'.

Notation "'do' x <- m ; k" := (bind m (fun x => k))
  (at level 10, x name, m at level 99, k at level 200, only parsing).

Definition logged (c : syscall) (d : Disk) : Disk :=
  mkDisk (files d) (oplog d ++ [c]).

(** The longest name of a directory entry, in bytes. *)
Definition NAME_MAX : nat := 255.

Definition too_long (target : string) : bool :=
  (NAME_MAX <? String.length target)%nat.

(** What [os.Stat] returns: the entry, an error of which [os.IsNotExist]
    holds, or another error. *)
Inductive stat : Type :=
  | Found (e : entry)
  | NotExist
  | StatError.

(** [os.Stat]: the entry when there is one; otherwise [ENAMETOOLONG] for
    a name no directory can hold, and [ENOENT], the error of
    [os.IsNotExist], for any other. *)
Definition os_Stat (target : string) : IO stat :=
  fun d =>
    (match files d !! target with
     | Some e => Found e
     | None => if too_long target then StatError else NotExist
     end, logged (Stat target) d).

(** [ioutil.ReadFile]: the content of a regular file, an error ([None])
    for a missing entry and for a directory. *)
Definition ioutil_ReadFile (target : string) : IO (option string) :=
  fun d =>
    (match files d !! target with
     | Some (File x) => Some x
     | _ => None
     end, logged (ReadFile target) d).

(** [ioutil.WriteFile]: creates or truncates the file and writes [data];
    an error ([false]) for the empty name, for a name longer than
    [NAME_MAX] and when the entry is a directory. *)
Definition ioutil_WriteFile (target data : string) : IO bool :=
  fun d =>
    if String.eqb target EmptyString || too_long target then
      (false, logged (WriteFile target data) d)
    else
      match files d !! target with
      | Some Dir => (false, logged (WriteFile target data) d)
      | _ => (true, mkDisk (<[target := File data]> (files d))
                           (oplog d ++ [WriteFile target data]))
      end.

(** [ioutil.ReadDir] of the data directory: the names of its entries,
    sorted by name. *)
Definition ioutil_ReadDir : IO (list string) :=
  fun d => (merge_sort String.le (fst <$> map_to_list (files d)), logged ReadDir d).

(** ** What a handler writes: [http.ResponseWriter]

    [Header] is the header map the handler edits; [wrote] is the status
    line and the snapshot of the header map taken when the header was
    written, [None] before; [body] is what was written after it. *)

Record ResponseWriter : Type := mkWriter {
  Header : gmap string string;
  wrote : option (nat * gmap string string);
  body : string
}.

Definition newWriter : ResponseWriter := mkWriter ∅ None EmptyString.

(** The response a client receives once the handler has returned: a
    handler that never wrote the header gets [200 OK] with the header map
    as it stands.  [headers] are the headers the handler set; the server
    adds its own (the date, the length, a content type it guesses when
    none is set). *)
Record Response : Type := mkResponse {
  StatusCode : nat;
  headers : gmap string string;
  payload : string
}.

Definition finish (res : ResponseWriter) : Response :=
  match wrote res with
  | Some (code, h) => mkResponse code h (body res)
  | None => mkResponse 200 (Header res) (body res)
  end.

(** [res.WriteHeader(code)]: only the first call counts. *)
Definition WriteHeader (res : ResponseWriter) (code : nat) : ResponseWriter :=
  match wrote res with
  | Some _ => res
  | None => mkWriter (Header res) (Some (code, Header res)) (body res)
  end.

(** [res.Write(p)]: writes the header with [200 OK] when none was
    written, then the bytes. *)
Definition Write (res : ResponseWriter) (p : string) : ResponseWriter :=
  let res := WriteHeader res 200 in
  mkWriter (Header res) (wrote res) (body res +:+ p).

(** [io.Copy(res, bytes.NewReader(data))]: one [Write] of what is left of
    the reader, none when it is empty. *)
Definition io_Copy (res : ResponseWriter) (data : string) : ResponseWriter :=
  match data with
  | EmptyString => res
  | String _ _ => Write res data
  end.

(** What a body reader delivers to [ioutil.ReadAll]: the bytes read, and
    whether the read ended in an error. *)
Record Body : Type := mkBody {
  contents : string;
  broken : bool
}.

(** [ioutil.ReadAll]: the slice it returns is never [nil]. *)
Definition ioutil_ReadAll (b : Body) : option string * bool :=
  (Some (contents b), broken b).

(** An outbound request as the API server issues it, and what
    [client.Do] or [http.Get] returns for it: an error, or a response with
    its status code and body. *)
Record Outbound : Type := mkOutbound {
  method : string;
  url : string;
  sent : string
}.

Inductive outcome : Type :=
  | TransportError
  | Answer (code : nat) (b : Body).

(** [libconfig.BlobServer] *)
Record BlobServer : Type := mkBlobServer {
  Group : string;
  Location : string
}.

Module Fmt.

Definition hex_digit (n : nat) : ascii :=
  ascii_of_nat (if (n <? 10)%nat then 48 + n else 87 + n).

(** The verb [%x] applied to a byte slice: two lower-case digits a
    byte. *)
Fixpoint hex (s : string) : string :=
  match s with
  | EmptyString => EmptyString
  | String c r =>
      String (hex_digit (nat_of_ascii c / 16))
        (String (hex_digit (nat_of_ascii c mod 16)) (hex r))
  end.

End Fmt.

(** A [nil] slice holds no bytes. *)
Definition bytes_of (p : option string) : string := default EmptyString p.

Definition newline : string := String "010"%char EmptyString.

(** [fmt.Sprintf] of the format of [UploadHandler], an [id] between
    quotes under [%s] and a length in decimal under [%d]:
    [{"id":"%s","status":"OK","size":%d}]. *)
Definition confirmation (id : string) (size : nat) : string :=
  "{" +:+ dq +:+ "id" +:+ dq +:+ ":" +:+ dq +:+ id +:+ dq +:+ ","
      +:+ dq +:+ "status" +:+ dq +:+ ":" +:+ dq +:+ "OK" +:+ dq +:+ ","
      +:+ dq +:+ "size" +:+ dq +:+ ":" +:+ pretty size +:+ "}".

(** The text [APIUploadHandler] prints once every server has been tried:
    [{"error":"upload failed"}]. *)
Definition upload_failed : string :=
  "{" +:+ dq +:+ "error" +:+ dq +:+ ":" +:+ dq +:+ "upload failed" +:+ dq +:+ "}".

Section Blobo.

(** [fmt.Fprintf] and [fmt.Sprintf] of a format given no operands. *)
Variable Sprint : string -> string.
(** [json.Unmarshal] into a fresh [map[string]string], errors dropped
    as the caller drops them. *)
Variable json_Unmarshal : string -> gmap string string.
(** [json.Marshal] of a [[]string]. *)
Variable json_Marshal : list string -> string.
(** [textproto.CanonicalMIMEHeaderKey], applied by [Header().Set]. *)
Variable CanonicalMIMEHeaderKey : string -> string.
(** The order in which [range] walks a map. *)
Variable range : gmap string string -> list (string * string).
(** [sha1.New()], [Write], [Sum(nil)]. *)
Variable sha1_Sum : string -> string.
(** [client.Do] and [http.Get]. *)
Variable Do : Outbound -> outcome.
(** [libconfig.OrderedServers()]: it takes no argument. *)
Variable OrderedServers : list BlobServer.

(** *** storage-api.go *)

Definition Get (id : string) : IO (option string * option (gmap string string)) :=
  let target := id in
  do st <- os_Stat target;
  match st with
  | NotExist => ret (None, None)
  | Found _ | StatError =>
      do x <- ioutil_ReadFile target;
      match x with
      | None => ret (None, None)
      | Some x =>
          do metaData <- ioutil_ReadFile (target +:+ ".json");
          ret (Some x, json_Unmarshal <$> metaData)
      end
  end.

Definition Store (id : string) (data : string) : IO bool :=
  let target := id in
  do ok <- ioutil_WriteFile target data;
  if ok then ret true else ret false.

Definition Existing : IO (list string) :=
  do entries <- ioutil_ReadDir;
  ret (List.filter (fun name => negb (Strings.HasSuffix name ".json")) entries).

Definition Exists (id : string) : IO bool :=
  let target := id in
  do st <- os_Stat target;
  match st with
  | NotExist => ret false
  | Found _ | StatError => ret true
  end.

(** *** net/http as the handlers use it *)

Definition Header_Set (res : ResponseWriter) (k v : string) : ResponseWriter :=
  mkWriter (<[CanonicalMIMEHeaderKey k := v]> (Header res)) (wrote res) (body res).

Definition Header_Get (h : gmap string string) (k : string) : option string :=
  h !! CanonicalMIMEHeaderKey k.

Definition Fprintf (res : ResponseWriter) (format : string) : ResponseWriter :=
  Write res (Sprint format).

(** [http.Error]: two headers, the status, then the message and a
    newline. *)
Definition http_Error (res : ResponseWriter) (error : string) (code : nat)
  : ResponseWriter :=
  let res := Header_Set res "Content-Type" "text/plain; charset=utf-8" in
  let res := Header_Set res "X-Content-Type-Options" "nosniff" in
  let res := WriteHeader res code in
  Write res (error +:+ newline).

Definition http_NotFound (res : ResponseWriter) : ResponseWriter :=
  http_Error res "404 page not found" 404.

(** The deferred function of [GetHandler] and [UploadHandler]:
    [if nil != err { http.Error(res, err.Error(), status) }]. *)
Definition deferred (res : ResponseWriter) (err : option string) (status : nat)
  : ResponseWriter :=
  match err with
  | Some e => http_Error res e status
  | None => res
  end.

(** *** cmd_api_server.go: the blob-server *)

(** One turn of the loop over the metadata in [GetHandler]. *)
Definition meta_header (res : ResponseWriter) (kv : string * string)
  : ResponseWriter :=
  let (k, v) := kv in
  let res := if String.eqb k "X-Mime-Type" then Header_Set res k v else res in
  let k := if String.eqb k "X-Mime-Type" then "Content-Type" else k in
  Header_Set res k v.

Definition GetHandler (Method id : string) (res : ResponseWriter)
  : IO ResponseWriter :=
  if negb (Regexp.MatchString id) then
    ret (deferred res (Some "alphanumeric IDs only") 500)
  else if String.eqb Method "HEAD" then
    let res := Header_Set res "Connection" "close" in
    do found <- Exists id;
    ret (deferred (if negb found then WriteHeader res 404 else res) None 0)
  else
    do got <- Get id;
    match got with
    | (None, _) => ret (deferred (http_NotFound res) None 0)
    | (Some data, meta) =>
        let res :=
          match meta with
          | Some m => foldl meta_header res (range m)
          | None => res
          end in
        ret (deferred (io_Copy res data) None 0)
    end.

Definition ListHandler (res : ResponseWriter) : IO ResponseWriter :=
  do list <- Existing;
  let mapB := json_Marshal list in
  ret (Fprintf res mapB).

Definition UploadHandler (id : string) (reqBody : Body) (res : ResponseWriter)
  : IO ResponseWriter :=
  if negb (Regexp.MatchString id) then
    ret (deferred res (Some "alphanumeric IDs only") 500)
  else
    let (content, err) := ioutil_ReadAll reqBody in
    if err then
      ret (deferred res (Some "failed to read body") 500)
    else
      do ok <- Store id (bytes_of content);
      if negb ok then
        ret (deferred res (Some "failed to write to storage") 500)
      else
        let out := confirmation id (String.length (bytes_of content)) in
        ret (deferred (Fprintf res out) None 0).

(** *** cmd_api_server.go: the API server

    A handler returns what it wrote together with the outbound requests
    it issued, in order.  The lines printed when [OPTIONS.verbose] is
    set are left out. *)

Definition blob_url (s : BlobServer) (name : string) : string :=
  Location s +:+ "/blob/" +:+ name.

(** The loop of [APIUploadHandler]; [Some] is its [return]. *)
Fixpoint upload_loop (servers : list BlobServer) (buf hash : string)
    (res : ResponseWriter) : option ResponseWriter * list Outbound :=
  match servers with
  | [] => (None, [])
  | s :: rest =>
      let child := mkOutbound "POST" (blob_url s (Fmt.hex hash)) buf in
      match Do child with
      | TransportError =>
          let (r, log) := upload_loop rest buf hash res in (r, child :: log)
      | Answer _ rbody =>
          match fst (ioutil_ReadAll rbody) with
          | Some response => (Some (Fprintf res response), [child])
          | None =>
              let (r, log) := upload_loop rest buf hash res in (r, child :: log)
          end
      end
  end.

Definition APIUploadHandler (reqBody : Body) (res : ResponseWriter)
  : ResponseWriter * list Outbound :=
  let buf := bytes_of (fst (ioutil_ReadAll reqBody)) in
  let hash := sha1_Sum buf in
  match upload_loop OrderedServers buf hash res with
  | (Some res, log) => (res, log)
  | (None, log) =>
      let res := WriteHeader res 500 in
      (Fprintf res upload_failed, log)
  end.

(** [id = id[0 : len(id)-len(extension)]] with
    [extension := filepath.Ext(id)]. *)
Definition strip_extension (id : string) : string :=
  let extension := Filepath.Ext id in
  Strings.upto (String.length id - String.length extension) id.

(** The loop of [APIDownloadHandler]; [Some] is its [return]. *)
Fixpoint download_loop (servers : list BlobServer) (Method id : string)
    (res : ResponseWriter) : option ResponseWriter * list Outbound :=
  match servers with
  | [] => (None, [])
  | s :: rest =>
      let get := mkOutbound "GET" (blob_url s id) EmptyString in
      let next :=
        let (r, log) := download_loop rest Method id res in (r, get :: log) in
      match Do get with
      | TransportError => next
      | Answer code rbody =>
          if negb (code =? 200)%nat then next
          else
            match fst (ioutil_ReadAll rbody) with
            | Some b =>
                if String.eqb Method "HEAD" then
                  let res := Header_Set res "Connection" "close" in
                  (Some (WriteHeader res 200), [get])
                else (Some (io_Copy res b), [get])
            | None => next
            end
      end
  end.

Definition APIDownloadHandler (Method id : string) (res : ResponseWriter)
  : ResponseWriter * list Outbound :=
  let id := strip_extension id in
  match download_loop OrderedServers Method id res with
  | (Some res, log) => (res, log)
  | (None, log) =>
      let res := Header_Set res "Connection" "close" in
      (WriteHeader res 404, log)
  end.

(** *** cmd_api_server.go: the handlers without a request to read *)

Definition HealthHandler (res : ResponseWriter) : ResponseWriter :=
  Fprintf res "alive".

Definition MissingHandler (res : ResponseWriter) : ResponseWriter :=
  let res := WriteHeader res 404 in
  Fprintf res "404 - content is not hosted here.".

Definition APIMissingHandler (res : ResponseWriter) : ResponseWriter :=
  let res := WriteHeader res 404 in
  Fprintf res "Invalid method or location.".

End Blobo.

(** ** Notions the statements are phrased with *)

(** The request [APIDownloadHandler] sends to a server for a name, and
    the one [APIUploadHandler] sends for a payload and its digest. *)
Definition fetch (name : string) (s : BlobServer) : Outbound :=
  mkOutbound "GET" (blob_url s name) EmptyString.

Definition post (buf hash : string) (s : BlobServer) : Outbound :=
  mkOutbound "POST" (blob_url s (Fmt.hex hash)) buf.

(** An outcome the download loop passes over: an error of the transport,
    or a status other than 200. *)
Definition unsuccessful (o : outcome) : Prop :=
  match o with
  | TransportError => True
  | Answer code _ => code <> 200
  end.

(** The content of the metadata record of [id] on a disk, when it is a
    readable file. *)
Definition sidecar (d : Disk) (id : string) : option string :=
  match files d !! (id +:+ ".json") with
  | Some (File x) => Some x
  | _ => None
  end.

(** Following the design document (section 4.2), for comparison with the
    handlers: the search path of a key over the groups of a registry, the
    endpoints of the home group first, then those of every other group in
    the order of the registry.  [index] is the numeric reduction of the
    key; the sources hold no such function. *)
Definition orderedSearchPath (index : string -> nat) (key : string)
    (registry : list (string * list BlobServer)) : list BlobServer :=
  let home := index key mod length registry in
  (concat (snd <$> take 1 (drop home registry)) ++
   concat (snd <$> (take home registry ++ drop (S home) registry)))%list.

(** ** Sample data of the examples *)

Module Sample.

(** A format without the byte [%] is printed as it is, and a header key
    in canonical form is left as it is; the examples print such formats
    and set such keys only. *)
Definition Sprint (format : string) : string := format.
Definition canonical (k : string) : string := k.

(** A digest function for the examples. *)
Definition digest (buf : string) : string := "D" +:+ buf.

Definition n1 : BlobServer := mkBlobServer "A" "http://n1:3001".
Definition n2 : BlobServer := mkBlobServer "B" "http://n2:3001".
Definition n3 : BlobServer := mkBlobServer "B" "http://n3:3001".

Definition registry : list (string * list BlobServer) :=
  [("A", [n1]); ("B", [n2; n3])].

(** A reduction of the key to a number: its length. *)
Definition index (key : string) : nat := String.length key.

(** No server can be reached. *)
Definition nobody (_ : Outbound) : outcome := TransportError.

(** [n1] cannot be reached, [n2] does not hold the blob, [n3] holds
    it. *)
Definition third_holds (r : Outbound) : outcome :=
  if String.eqb (url r) "http://n3:3001/blob/abc123" then
    Answer 200 (mkBody "PNG" false)
  else if String.eqb (url r) "http://n2:3001/blob/abc123" then
    Answer 404 (mkBody "404 page not found" false)
  else TransportError.

(** [n1] answers the upload with an error of its storage, [n2] would
    accept it. *)
Definition first_refuses (r : Outbound) : outcome :=
  if String.eqb (url r) "http://n1:3001/blob/4468656c6c6f" then
    Answer 500 (mkBody ("failed to write to storage" +:+ newline) false)
  else if String.eqb (url r) "http://n2:3001/blob/4468656c6c6f" then
    Answer 200 (mkBody (confirmation "4468656c6c6f" 5) false)
  else TransportError.

(** A data directory with one blob and its metadata record, the record
    of a blob that is gone, and a directory. *)
Definition record : string :=
  "{" +:+ dq +:+ "X-Mime-Type" +:+ dq +:+ ":" +:+ dq +:+ "image/png" +:+ dq +:+ ","
      +:+ dq +:+ "Content-Type" +:+ dq +:+ ":" +:+ dq +:+ "text/plain" +:+ dq +:+ "}".

Definition meta : gmap string string :=
  {[ "X-Mime-Type" := "image/png"; "Content-Type" := "text/plain" ]}.

Definition record_png : string :=
  "{" +:+ dq +:+ "X-Mime-Type" +:+ dq +:+ ":" +:+ dq +:+ "image/png" +:+ dq +:+ "}".

Definition meta_png : gmap string string := {[ "X-Mime-Type" := "image/png" ]}.

Definition Unmarshal (text : string) : gmap string string :=
  if String.eqb text record then meta
  else if String.eqb text record_png then meta_png
  else ∅.

Definition disk : Disk :=
  mkDisk {[ "abc" := File "hello"; "abc.json" := File record;
            "pic" := File "PNG"; "pic.json" := File record_png;
            "gone.json" := File record_png; "tmp" := Dir ]} [].

Definition empty_disk : Disk := mkDisk ∅ [].

(** An id of 256 bytes, one more than a name may have. *)
Definition long_id : string := string_of_list_ascii (replicate 256 "a"%char).

(** An order in which [range] may walk a map: the entries from last to
    first. *)
Definition backwards (m : gmap string string) : list (string * string) :=
  reverse (map_to_list m).

End Sample.

(** * Properties *)

(** ** Byte strings *)

Lemma app_cons (c : ascii) (a b : string) : String c a +:+ b = String c (a +:+ b).
Proof. reflexivity. Qed.

Lemma app_empty_l (b : string) : EmptyString +:+ b = b.
Proof. reflexivity. Qed.

Lemma app_empty_r (a : string) : a +:+ EmptyString = a.
Proof. induction a as [|c a IH]; [reflexivity|]. by rewrite app_cons, IH. Qed.

Lemma length_append (a b : string) :
  String.length (a +:+ b) = String.length a + String.length b.
Proof.
  induction a as [|c a IH]; [reflexivity|].
  rewrite app_cons. simpl. by rewrite IH.
Qed.

(** Cancellation of a common ending. *)
Lemma app_inv_tail (a b s : string) : a +:+ s = b +:+ s -> a = b.
Proof.
  revert b. induction a as [|c a IH]; intros [|c' b] H.
  - reflexivity.
  - apply (f_equal String.length) in H.
    rewrite app_empty_l, app_cons in H. simpl in H. rewrite length_append in H. lia.
  - apply (f_equal String.length) in H.
    rewrite app_empty_l, app_cons in H. simpl in H. rewrite length_append in H. lia.
  - rewrite !app_cons in H. injection H as -> H. f_equal. by apply IH.
Qed.

Lemma app_neq_self (a s : string) : s <> EmptyString -> a <> a +:+ s.
Proof.
  intros Hs H. apply (f_equal String.length) in H. rewrite length_append in H.
  destruct s; [done|]. simpl in H. lia.
Qed.

Lemma substring_all (s : string) : String.substring 0 (String.length s) s = s.
Proof. induction s as [|c s IH]; [reflexivity|]. simpl. by rewrite IH. Qed.


(** A string is what comes before an index followed by what comes from
    it. *)
Lemma upto_from (i : nat) (s : string) :
  i <= String.length s -> Strings.upto i s +:+ Strings.from i s = s.
Proof.
  unfold Strings.upto, Strings.from. revert i.
  induction s as [|c s IH]; intros [|i] Hi; simpl in *; try lia.
  - reflexivity.
  - by rewrite app_empty_l, substring_all.
  - rewrite app_cons. f_equal. apply IH. lia.
Qed.

Lemma length_from (i : nat) (s : string) :
  i <= String.length s -> String.length (Strings.from i s) = String.length s - i.
Proof.
  intros Hi. pose proof (upto_from i s Hi) as H.
  apply (f_equal String.length) in H. rewrite length_append in H.
  assert (String.length (Strings.upto i s) = i); [|lia].
  clear H. unfold Strings.upto. revert i Hi.
  induction s as [|c s IH]; intros [|i] Hi; simpl in *; try lia; try reflexivity.
  rewrite IH; lia.
Qed.

Lemma contains_app (c : ascii) (a b : string) :
  Strings.contains c (a +:+ b) = Strings.contains c a || Strings.contains c b.
Proof.
  induction a as [|x a IH]; [reflexivity|].
  rewrite app_cons. simpl. rewrite IH. by rewrite orb_assoc.
Qed.

Lemma contains_substring (c : ascii) (n m : nat) (s : string) :
  Strings.contains c (String.substring n m s) = true -> Strings.contains c s = true.
Proof.
  revert n m. induction s as [|x s IH]; intros [|n] [|m]; simpl; try done.
  - intros [->|H]%orb_true_iff; [done|]. rewrite (IH 0 m H). apply orb_true_r.
  - intros H. rewrite (IH n 0 H). apply orb_true_r.
  - intros H. rewrite (IH n (S m) H). apply orb_true_r.
Qed.

(** A byte of a suffix of [s] occurs in [s]. *)
Lemma HasSuffix_contains (c : ascii) (s suffix : string) :
  Strings.HasSuffix s suffix = true ->
  Strings.contains c suffix = true -> Strings.contains c s = true.
Proof.
  unfold Strings.HasSuffix, Strings.from.
  intros [_ H%String.eqb_eq]%andb_true_iff Hc. rewrite <- H in Hc.
  by apply contains_substring in Hc.
Qed.


(** An id has no byte outside the class [[a-z0-9]]. *)
Lemma all_id_bytes_contains (c : ascii) (s : string) :
  Regexp.id_byte c = false -> Regexp.all_id_bytes s = true ->
  Strings.contains c s = false.
Proof.
  intros Hc. induction s as [|x s IH]; [done|]. simpl.
  intros [Hx Hs]%andb_true_iff. rewrite (IH Hs), orb_false_r.
  destruct (Ascii.eqb_spec x c) as [->|]; [congruence|done].
Qed.

Lemma MatchString_contains (c : ascii) (id : string) :
  Regexp.id_byte c = false -> Regexp.MatchString id = true ->
  Strings.contains c id = false.
Proof.
  intros Hc Hid. apply all_id_bytes_contains; [done|]. by destruct id.
Qed.

(** So an id never ends in [.json]: no blob is mistaken for a metadata
    record. *)
Lemma MatchString_not_json (id : string) :
  Regexp.MatchString id = true -> Strings.HasSuffix id ".json" = false.
Proof.
  intros Hid. destruct (Strings.HasSuffix id ".json") eqn:H; [|done].
  apply (HasSuffix_contains "."%char) in H; [|done].
  by rewrite (MatchString_contains "."%char id) in H.
Qed.

(** ** The extension of an identifier *)

Lemma Ext_loop_from (path : string) (n : nat) :
  n <= String.length path ->
  Filepath.Ext_loop path n = EmptyString \/
  exists i, i < n /\ Filepath.Ext_loop path n = Strings.from i path.
Proof.
  induction n as [|i IH]; intros Hn; simpl; [by left|].
  destruct (String.get i path) as [c|]; [|by left].
  destruct (Filepath.IsPathSeparator c); [by left|].
  destruct (Ascii.eqb c "."); [right; exists i; split; [lia|done]|].
  destruct IH as [H|(j & Hj & H)]; [lia|by left|].
  right. exists j. split; [lia|done].
Qed.

(** The identifier is its stripped form followed by its extension. *)
Lemma strip_extension_Ext (id : string) :
  strip_extension id +:+ Filepath.Ext id = id.
Proof.
  unfold strip_extension, Filepath.Ext.
  destruct (Ext_loop_from id (String.length id)) as [->|(i & Hi & ->)]; [lia|..].
  - simpl. rewrite Nat.sub_0_r. unfold Strings.upto.
    by rewrite substring_all, app_empty_r.
  - rewrite length_from by lia.
    replace (String.length id - (String.length id - i)) with i by lia.
    apply upto_from. lia.
Qed.

Example strip_extension_png : strip_extension "abc123.png" = "abc123".
Proof. reflexivity. Qed.

Example strip_extension_last_only : strip_extension "archive.tar.gz" = "archive.tar".
Proof. reflexivity. Qed.

(** ** storage-api.go *)

Section StorageFacts.

Variable json_Unmarshal : string -> gmap string string.

(** [Store] succeeds unless the id is empty, is longer than a name may
    be, or names a directory. *)
Lemma Store_true_iff (d : Disk) (id data : string) :
  fst (Store id data d) = true <->
  id <> EmptyString /\ too_long id = false /\ files d !! id <> Some Dir.
Proof.
  unfold Store, bind, ioutil_WriteFile, ret.
  destruct (String.eqb_spec id EmptyString) as [->|Hne]; simpl.
  { split; [done|]. by intros [? _]. }
  destruct (too_long id); simpl.
  { split; [done|]. by intros (_ & ? & _). }
  destruct (files d !! id) as [[x|]|]; simpl; split; try done;
    by intros (_ & _ & ?).
Qed.

Lemma files_Store (d : Disk) (id data : string) :
  fst (Store id data d) = true ->
  files (snd (Store id data d)) = <[id := File data]> (files d).
Proof.
  unfold Store, bind, ioutil_WriteFile, ret.
  destruct (String.eqb id EmptyString || too_long id); [done|].
  by destruct (files d !! id) as [[x|]|].
Qed.

(** [Exists] holds of an entry of the directory and of a name too long to
    be one. *)
Lemma Exists_true_iff (d : Disk) (id : string) :
  fst (Exists id d) = true <-> is_Some (files d !! id) \/ too_long id = true.
Proof.
  unfold Exists, bind, os_Stat, ret.
  destruct (files d !! id) as [e|]; simpl.
  - split; [by left|done].
  - destruct (too_long id); simpl; split; try done; [by right|].
    by intros [[? ?]|?].
Qed.

Lemma Exists_lookup (d : Disk) (id : string) :
  fst (Exists id d)
  = match files d !! id with Some _ => true | None => too_long id end.
Proof.
  unfold Exists, bind, os_Stat, ret. simpl.
  destruct (files d !! id); [done|]. by destruct (too_long id).
Qed.

Lemma Get_without_file (d : Disk) (id : string) :
  files d !! id = None \/ files d !! id = Some Dir ->
  fst (Get json_Unmarshal id d) = (None, None).
Proof.
  unfold Get, bind, os_Stat, ioutil_ReadFile, ret.
  intros [H|H]; simpl; rewrite H; simpl; [destruct (too_long id); simpl|];
    rewrite ?H; done.
Qed.

Lemma Get_found (d : Disk) (id x : string) :
  files d !! id = Some (File x) ->
  fst (Get json_Unmarshal id d) = (Some x, json_Unmarshal <$> sidecar d id).
Proof.
  intros H. unfold Get, bind, os_Stat, ioutil_ReadFile, ret, sidecar. simpl.
  rewrite H. simpl. rewrite H. simpl.
  by destruct (files d !! (id +:+ ".json")) as [[y|]|].
Qed.

(** C9.  Whenever the content file of an id is missing or cannot be read
    (it is a directory), [Get] returns neither content nor metadata,
    whatever the metadata record [<id>.json] holds. *)
Theorem Get_absent_without_content (d : Disk) (id : string) :
  files d !! id = None \/ files d !! id = Some Dir ->
  fst (Get json_Unmarshal id d) = (None, None).
Proof.
  unfold Get, bind, os_Stat, ioutil_ReadFile, ret.
  intros [H|H]; simpl; rewrite H; simpl; [destruct (too_long id); simpl|];
    rewrite ?H; done.
Qed.

(** C5, as amended.  When [Store] reports success, [Get] of the same id
    returns the bytes stored; the metadata it returns are those of the
    record [<id>.json] that was on the disk before, which [Store], taking
    no metadata, leaves as it was. *)
Theorem Store_then_Get (d : Disk) (id data : string) :
  fst (Store id data d) = true ->
  fst (Get json_Unmarshal id (snd (Store id data d)))
  = (Some data, json_Unmarshal <$> sidecar d id).
Proof.
  intros Hok. rewrite (Get_found _ _ data).
  - f_equal. f_equal. unfold sidecar. rewrite (files_Store _ _ _ Hok).
    rewrite lookup_insert_ne; [done|]. by apply app_neq_self.
  - rewrite (files_Store _ _ _ Hok). apply lookup_insert_eq.
Qed.

End StorageFacts.

(** ** The listing *)

Lemma elem_of_Existing (d : Disk) (name : string) :
  name ∈ fst (Existing d) <->
  is_Some (files d !! name) /\ Strings.HasSuffix name ".json" = false.
Proof.
  unfold Existing, bind, ioutil_ReadDir, ret. simpl.
  rewrite list_elem_of_In, filter_In, <- list_elem_of_In, merge_sort_Permutation.
  rewrite negb_true_iff, list_elem_of_fmap.
  split.
  - intros [([k e] & -> & He%elem_of_map_to_list) Hs]. split; [by exists e|done].
  - intros [[e He] Hs]. split; [|done].
    exists (name, e). split; [done|]. by apply elem_of_map_to_list.
Qed.


Section ListingFacts.

Variable Sprint : string -> string.
Variable json_Unmarshal : string -> gmap string string.
Variable json_Marshal : list string -> string.



End ListingFacts.

(** ** The handlers of the blob-server *)

(** Every call into the storage class reaches the operating system, and
    the log shows it. *)
Lemma storage_calls_are_logged (unmarshal : string -> gmap string string)
    (d : Disk) (id data : string) :
  length (oplog d) < length (oplog (snd (Get unmarshal id d))) /\
  length (oplog d) < length (oplog (snd (Store id data d))) /\
  length (oplog d) < length (oplog (snd (Exists id d))) /\
  length (oplog d) < length (oplog (snd (Existing d))).
Proof.
  unfold Get, Store, Exists, Existing, bind, ret,
    os_Stat, ioutil_ReadFile, ioutil_WriteFile, ioutil_ReadDir, logged.
  repeat split.
  - simpl. destruct (files d !! id) as [[x|]|] eqn:E; simpl;
      [| |destruct (too_long id); simpl]; rewrite ?E; simpl;
      rewrite ?length_app; simpl; lia.
  - destruct (String.eqb id EmptyString || too_long id);
      [|destruct (files d !! id) as [[x|]|]]; simpl; rewrite ?length_app; simpl; lia.
  - simpl. destruct (files d !! id); [|destruct (too_long id)]; simpl;
      rewrite ?length_app; simpl; lia.
  - simpl. rewrite length_app. simpl. lia.
Qed.

Section NodeFacts.

Variable Sprint : string -> string.
Variable json_Unmarshal : string -> gmap string string.
Variable canon : string -> string.
Variable range : gmap string string -> list (string * string).

Lemma finish_http_Error (error : string) (code : nat) :
  StatusCode (finish (http_Error canon newWriter error code)) = code /\
  payload (finish (http_Error canon newWriter error code)) = error +:+ newline.
Proof. split; reflexivity. Qed.

(** C3.  For an id that does not match [^([a-z0-9]+)$], the handler of
    [GET] and [HEAD /blob/{id}] (get, exists) and the handler of
    [POST /blob/{id}] (store) answer with the error and return the disk
    and the log of system calls as they found them: the storage class is
    not called and no file is read or written. *)
Theorem malformed_id_touches_no_file (Method id : string) (reqBody : Body)
    (res : ResponseWriter) (d : Disk) :
  Regexp.MatchString id = false ->
  GetHandler json_Unmarshal canon range Method id res d
  = (http_Error canon res "alphanumeric IDs only" 500, d) /\
  UploadHandler Sprint canon id reqBody res d
  = (http_Error canon res "alphanumeric IDs only" 500, d).
Proof.
  intros Hid. unfold GetHandler, UploadHandler.
  by rewrite Hid.
Qed.

(** C4, as amended.  For an id that does not match, both handlers answer
    with status 500 (Internal Server Error) and the message
    [alphanumeric IDs only]. *)
Theorem malformed_id_is_status_500 (Method id : string) (reqBody : Body)
    (d : Disk) :
  Regexp.MatchString id = false ->
  StatusCode (finish (fst (GetHandler json_Unmarshal canon range Method id newWriter d))) = 500 /\
  payload (finish (fst (GetHandler json_Unmarshal canon range Method id newWriter d)))
  = "alphanumeric IDs only" +:+ newline /\
  StatusCode (finish (fst (UploadHandler Sprint canon id reqBody newWriter d))) = 500 /\
  payload (finish (fst (UploadHandler Sprint canon id reqBody newWriter d)))
  = "alphanumeric IDs only" +:+ newline.
Proof.
  intros Hid. unfold GetHandler, UploadHandler.
  rewrite Hid. repeat split.
Qed.

Lemma confirmation_plain (id : string) (size : nat) :
  Regexp.MatchString id = true ->
  Strings.contains "%" (pretty size) = false ->
  Strings.contains "%" (confirmation id size) = false.
Proof.
  intros Hid Hsize. unfold confirmation. rewrite !contains_app.
  rewrite (MatchString_contains "%"%char id), Hsize; done.
Qed.


(** *** The headers [GetHandler] sets from the metadata *)

Lemma meta_header_keeps (res : ResponseWriter) (kv : string * string) :
  wrote (meta_header canon res kv) = wrote res /\
  body (meta_header canon res kv) = body res.
Proof. destruct kv as [k v]. unfold meta_header. by destruct (String.eqb k _). Qed.

Lemma foldl_meta_header_keeps (l : list (string * string)) (res : ResponseWriter) :
  wrote (foldl (meta_header canon) res l) = wrote res /\
  body (foldl (meta_header canon) res l) = body res.
Proof.
  revert res. induction l as [|kv l IH]; intros res; [done|]. simpl.
  destruct (IH (meta_header canon res kv)) as [-> ->]. apply meta_header_keeps.
Qed.

(** An entry is harmless for the content type [v] when it is the reserved
    key with that value, or a key whose canonical form is not that of
    [Content-Type]. *)
Lemma meta_header_Content_Type (res : ResponseWriter) (k w v : string) :
  (k = "X-Mime-Type" /\ w = v) \/
  (k <> "X-Mime-Type" /\ canon k <> canon "Content-Type" /\
   Header_Get canon (Header res) "Content-Type" = Some v) ->
  Header_Get canon (Header (meta_header canon res (k, w))) "Content-Type" = Some v.
Proof.
  unfold meta_header, Header_Get, Header_Set.
  intros [[-> ->]|(Hk & Hc & Hv)]; simpl.
  - apply lookup_insert_eq.
  - apply String.eqb_neq in Hk. rewrite Hk. simpl. by rewrite lookup_insert_ne.
Qed.

Lemma foldl_meta_header_kept (v : string) (l : list (string * string))
    (res : ResponseWriter) :
  (forall k w, (k, w) ∈ l ->
     (k = "X-Mime-Type" /\ w = v) \/
     (k <> "X-Mime-Type" /\ canon k <> canon "Content-Type")) ->
  Header_Get canon (Header res) "Content-Type" = Some v ->
  Header_Get canon (Header (foldl (meta_header canon) res l)) "Content-Type" = Some v.
Proof.
  revert res. induction l as [|[k w] l IH]; intros res Hl Hres; [done|]. simpl.
  apply IH.
  - intros k' w' H. apply Hl. by right.
  - apply meta_header_Content_Type.
    destruct (Hl k w) as [?|[? ?]]; [by left|by left|by right].
Qed.

Lemma foldl_meta_header_set (v : string) (l : list (string * string))
    (res : ResponseWriter) :
  ("X-Mime-Type", v) ∈ l ->
  (forall k w, (k, w) ∈ l ->
     (k = "X-Mime-Type" /\ w = v) \/
     (k <> "X-Mime-Type" /\ canon k <> canon "Content-Type")) ->
  Header_Get canon (Header (foldl (meta_header canon) res l)) "Content-Type" = Some v.
Proof.
  revert res. induction l as [|[k w] l IH]; intros res Hin Hl.
  - by apply elem_of_nil in Hin.
  - simpl. apply elem_of_cons in Hin as [[= <- <-]|Hin].
    + apply foldl_meta_header_kept.
      * intros k' w' H. apply Hl. by right.
      * apply meta_header_Content_Type. by left.
    + apply IH; [done|]. intros k' w' H. apply Hl. by right.
Qed.

(** C7, as amended.  For a stored blob whose metadata hold the reserved
    key [X-Mime-Type] with value [v], and hold no other key whose
    canonical form is that of [Content-Type], the response to a [GET] has
    [v] as its [Content-Type] header, in whatever order the metadata are
    walked. *)
Theorem X_Mime_Type_becomes_Content_Type (d : Disk) (id data v : string)
    (m : gmap string string) :
  Regexp.MatchString id = true ->
  fst (Get json_Unmarshal id d) = (Some data, Some m) ->
  m !! "X-Mime-Type" = Some v ->
  range m ≡ₚ map_to_list m ->
  (forall k, is_Some (m !! k) -> k <> "X-Mime-Type" ->
             canon k <> canon "Content-Type") ->
  Header_Get canon
    (headers (finish (fst (GetHandler json_Unmarshal canon range "GET" id newWriter d))))
    "Content-Type" = Some v.
Proof.
  intros Hid Hget Hv Hperm Hother.
  unfold GetHandler. rewrite Hid. simpl. unfold bind.
  destruct (Get json_Unmarshal id d) as [got d'] eqn:HG. simpl in Hget. subst got.
  unfold ret, deferred. simpl.
  set (res := foldl (meta_header canon) newWriter (range m)).
  assert (Header_Get canon (Header res) "Content-Type" = Some v) as Hres.
  { apply foldl_meta_header_set.
    - rewrite Hperm. by apply elem_of_map_to_list.
    - intros k w. rewrite Hperm. intros Hkw%elem_of_map_to_list.
      destruct (decide (k = "X-Mime-Type")) as [->|Hk].
      + left. split; [done|congruence].
      + right. split; [done|]. apply Hother; [by eexists|done]. }
  destruct (foldl_meta_header_keeps (range m) newWriter) as [Hw _].
  fold res in Hw. simpl in Hw.
  unfold io_Copy, finish, Write, WriteHeader.
  destruct data; simpl; rewrite Hw; simpl; done.
Qed.

End NodeFacts.

(** ** The handlers of the API server *)

Local Open Scope list_scope.

Section APIFacts.

Variable Sprint : string -> string.
Variable canon : string -> string.
Variable sha1_Sum : string -> string.
Variable Do : Outbound -> outcome.
Variable OrderedServers : list BlobServer.

(** *** Download *)

Lemma download_loop_skips (Method name : string) (res : ResponseWriter)
    (before rest : list BlobServer) :
  Forall (fun x => unsuccessful (Do (fetch name x))) before ->
  download_loop canon Do (before ++ rest) Method name res
  = (fst (download_loop canon Do rest Method name res),
     (fetch name <$> before) ++ snd (download_loop canon Do rest Method name res)).
Proof.
  induction 1 as [|x before Hx _ IH]; simpl.
  - by destruct (download_loop canon Do rest Method name res).
  - rewrite IH. fold (fetch name x). unfold unsuccessful in Hx.
    destruct (Do (fetch name x)) as [|code b]; [done|].
    apply Nat.eqb_neq in Hx. by rewrite Hx.
Qed.

Lemma download_loop_exhausted (Method name : string) (res : ResponseWriter)
    (servers : list BlobServer) :
  Forall (fun x => unsuccessful (Do (fetch name x))) servers ->
  download_loop canon Do servers Method name res = (None, fetch name <$> servers).
Proof.
  intros H. pose proof (download_loop_skips Method name res servers [] H) as E.
  rewrite !app_nil_r in E. exact E.
Qed.

Lemma download_loop_hit (Method name : string) (res : ResponseWriter)
    (s : BlobServer) (rest : list BlobServer) (b : Body) :
  Do (fetch name s) = Answer 200 b ->
  download_loop canon Do (s :: rest) Method name res
  = (Some (if String.eqb Method "HEAD"
           then WriteHeader (Header_Set canon res "Connection" "close") 200
           else io_Copy res (contents b)),
     [fetch name s]).
Proof.
  intros Hs. simpl. fold (fetch name s). rewrite Hs. simpl.
  by destruct (String.eqb Method "HEAD").
Qed.

Lemma download_loop_log (Method name : string) (res : ResponseWriter)
    (servers : list BlobServer) :
  snd (download_loop canon Do servers Method name res)
    `prefix_of` (fetch name <$> servers).
Proof.
  induction servers as [|s servers IH]; simpl; [done|].
  fold (fetch name s).
  assert (snd (let (r, log) := download_loop canon Do servers Method name res in
               (r, fetch name s :: log))
          `prefix_of` (fetch name s :: (fetch name <$> servers))) as Hnext.
  { destruct (download_loop canon Do servers Method name res) as [r log].
    by apply prefix_cons. }
  assert ([fetch name s] `prefix_of` (fetch name s :: (fetch name <$> servers)))
    as Hone by (apply prefix_cons, prefix_nil).
  destruct (Do (fetch name s)) as [|code b]; [done|].
  destruct (code =? 200)%nat; simpl; [|done].
  by destruct (String.eqb Method "HEAD").
Qed.

Lemma finish_io_Copy (data : string) :
  finish (io_Copy newWriter data) = mkResponse 200 ∅ data.
Proof. by destruct data. Qed.

(** C2.  The download handler tries the servers in order, passing over a
    server whose request fails and one that answers with a status other
    than 200 alike.  At the first server that answers 200 it stops: to
    [GET] it answers 200 with the body that server sent, to [HEAD] 200 with
    no body, and no later server is asked.  When no server succeeds the
    answer is 404 with no body, whatever the failures were. *)
Theorem download_fails_over (Method id : string) :
  (forall before s after b,
     OrderedServers = before ++ s :: after ->
     Forall (fun x => unsuccessful (Do (fetch (strip_extension id) x))) before ->
     Do (fetch (strip_extension id) s) = Answer 200 b ->
     finish (fst (APIDownloadHandler canon Do OrderedServers Method id newWriter))
     = (if String.eqb Method "HEAD"
        then mkResponse 200 (<[canon "Connection" := "close"]> ∅) EmptyString
        else mkResponse 200 ∅ (contents b)) /\
     snd (APIDownloadHandler canon Do OrderedServers Method id newWriter)
     = fetch (strip_extension id) <$> (before ++ [s])) /\
  (Forall (fun x => unsuccessful (Do (fetch (strip_extension id) x))) OrderedServers ->
     finish (fst (APIDownloadHandler canon Do OrderedServers Method id newWriter))
     = mkResponse 404 (<[canon "Connection" := "close"]> ∅) EmptyString /\
     snd (APIDownloadHandler canon Do OrderedServers Method id newWriter)
     = fetch (strip_extension id) <$> OrderedServers).
Proof.
  unfold APIDownloadHandler. split.
  - intros before s after b -> Hbefore Hs.
    rewrite (download_loop_skips _ _ _ _ _ Hbefore).
    rewrite (download_loop_hit _ _ _ _ _ _ Hs). simpl.
    rewrite fmap_app. split; [|done].
    destruct (String.eqb Method "HEAD"); [done|apply finish_io_Copy].
  - intros Hall. by rewrite (download_loop_exhausted _ _ _ _ Hall).
Qed.

(** C8, as amended.  The identifier is split into a stripped form and its
    extension, and every request the download handler issues is a [GET] of
    [/blob/] followed by the stripped form, sent to the servers of
    [OrderedServers()] in their order from the first; that list is
    obtained without any key. *)
Theorem download_asks_for_stripped_id (Method id : string) :
  strip_extension id +:+ Filepath.Ext id = id /\
  snd (APIDownloadHandler canon Do OrderedServers Method id newWriter)
    `prefix_of` (fetch (strip_extension id) <$> OrderedServers).
Proof.
  split; [apply strip_extension_Ext|].
  unfold APIDownloadHandler.
  pose proof (download_loop_log Method (strip_extension id) newWriter OrderedServers) as H.
  by destruct (download_loop canon Do OrderedServers Method (strip_extension id) newWriter)
    as [[r|] log].
Qed.

(** *** Upload *)

Lemma upload_loop_skips (buf hash : string) (res : ResponseWriter)
    (before rest : list BlobServer) :
  Forall (fun x => Do (post buf hash x) = TransportError) before ->
  upload_loop Sprint Do (before ++ rest) buf hash res
  = (fst (upload_loop Sprint Do rest buf hash res),
     (post buf hash <$> before) ++ snd (upload_loop Sprint Do rest buf hash res)).
Proof.
  induction 1 as [|x before Hx _ IH]; simpl.
  - by destruct (upload_loop Sprint Do rest buf hash res).
  - rewrite IH. fold (post buf hash x). by rewrite Hx.
Qed.

Lemma upload_loop_exhausted (buf hash : string) (res : ResponseWriter)
    (servers : list BlobServer) :
  Forall (fun x => Do (post buf hash x) = TransportError) servers ->
  upload_loop Sprint Do servers buf hash res = (None, post buf hash <$> servers).
Proof.
  intros H. pose proof (upload_loop_skips buf hash res servers [] H) as E.
  rewrite !app_nil_r in E. exact E.
Qed.

(** The loop returns at the first server that answers at all: the status
    code of the answer is not looked at. *)
Lemma upload_loop_answer (buf hash : string) (res : ResponseWriter)
    (s : BlobServer) (rest : list BlobServer) (code : nat) (b : Body) :
  Do (post buf hash s) = Answer code b ->
  upload_loop Sprint Do (s :: rest) buf hash res
  = (Some (Fprintf Sprint res (contents b)), [post buf hash s]).
Proof. intros Hs. simpl. fold (post buf hash s). by rewrite Hs. Qed.

(** C1, what the sources do.  The upload handler tries the servers in
    order and passes over a server whose request fails in the transport.
    It stops at the first server that answers, whatever the status code of
    the answer, and prints the body of that answer under status 200; no
    later server is asked.  When the transport fails for every server it
    answers 500 and prints the failure text. *)
Theorem upload_relays_first_answer (reqBody : Body) :
  (forall before s after code b,
     OrderedServers = before ++ s :: after ->
     Forall (fun x => Do (post (contents reqBody) (sha1_Sum (contents reqBody)) x)
                      = TransportError) before ->
     Do (post (contents reqBody) (sha1_Sum (contents reqBody)) s) = Answer code b ->
     finish (fst (APIUploadHandler Sprint sha1_Sum Do OrderedServers reqBody newWriter))
     = mkResponse 200 ∅ (Sprint (contents b)) /\
     snd (APIUploadHandler Sprint sha1_Sum Do OrderedServers reqBody newWriter)
     = post (contents reqBody) (sha1_Sum (contents reqBody)) <$> (before ++ [s])) /\
  (Forall (fun x => Do (post (contents reqBody) (sha1_Sum (contents reqBody)) x)
                    = TransportError) OrderedServers ->
     finish (fst (APIUploadHandler Sprint sha1_Sum Do OrderedServers reqBody newWriter))
     = mkResponse 500 ∅ (Sprint upload_failed) /\
     snd (APIUploadHandler Sprint sha1_Sum Do OrderedServers reqBody newWriter)
     = post (contents reqBody) (sha1_Sum (contents reqBody)) <$> OrderedServers).
Proof.
  unfold APIUploadHandler. simpl. split.
  - intros before s after code b -> Hbefore Hs.
    rewrite (upload_loop_skips _ _ _ _ _ Hbefore).
    rewrite (upload_loop_answer _ _ _ _ _ _ _ Hs). simpl.
    by rewrite fmap_app.
  - intros Hall. by rewrite (upload_loop_exhausted _ _ _ _ Hall).
Qed.

End APIFacts.

(** ** The statements at concrete inputs *)

(** [n1] cannot be reached and [n2] answers 404: the [GET] of
    [abc123.png] is answered with what [n3] holds, after three requests
    for [abc123]. *)
Lemma download_fails_over_witness :
  finish (fst (APIDownloadHandler Sample.canonical Sample.third_holds
                 [Sample.n1; Sample.n2; Sample.n3] "GET" "abc123.png" newWriter))
  = mkResponse 200 ∅ "PNG" /\
  snd (APIDownloadHandler Sample.canonical Sample.third_holds
         [Sample.n1; Sample.n2; Sample.n3] "GET" "abc123.png" newWriter)
  = fetch "abc123" <$> [Sample.n1; Sample.n2; Sample.n3].
Proof.
  apply (proj1 (download_fails_over Sample.canonical Sample.third_holds
                  [Sample.n1; Sample.n2; Sample.n3] "GET" "abc123.png")
           [Sample.n1; Sample.n2] Sample.n3 [] (mkBody "PNG" false)).
  - reflexivity.
  - repeat constructor. vm_compute. lia.
  - reflexivity.
Defined.

(** The upload of [hello] when [n1] answers 500 and [n2] would accept it:
    the caller receives the error text of [n1] under status 200, and [n2]
    is never asked. *)
Lemma upload_relays_first_answer_witness :
  finish (fst (APIUploadHandler Sample.Sprint Sample.digest Sample.first_refuses
                 [Sample.n1; Sample.n2] (mkBody "hello" false) newWriter))
  = mkResponse 200 ∅ ("failed to write to storage" +:+ newline) /\
  snd (APIUploadHandler Sample.Sprint Sample.digest Sample.first_refuses
         [Sample.n1; Sample.n2] (mkBody "hello" false) newWriter)
  = [post "hello" "Dhello" Sample.n1].
Proof.
  apply (proj1 (upload_relays_first_answer Sample.Sprint Sample.digest
                  Sample.first_refuses [Sample.n1; Sample.n2] (mkBody "hello" false))
           [] Sample.n1 [Sample.n2] 500
           (mkBody ("failed to write to storage" +:+ newline) false)).
  - reflexivity.
  - constructor.
  - reflexivity.
Defined.

Lemma malformed_id_touches_no_file_witness :
  GetHandler Sample.Unmarshal Sample.canonical map_to_list
    "HEAD" "../abc" newWriter Sample.disk
  = (http_Error Sample.canonical newWriter "alphanumeric IDs only" 500, Sample.disk) /\
  UploadHandler Sample.Sprint Sample.canonical
    "../abc" (mkBody "hello" false) newWriter Sample.disk
  = (http_Error Sample.canonical newWriter "alphanumeric IDs only" 500, Sample.disk).
Proof.
  apply (malformed_id_touches_no_file Sample.Sprint Sample.Unmarshal
           Sample.canonical map_to_list "HEAD" "../abc" (mkBody "hello" false)
           newWriter Sample.disk).
  reflexivity.
Defined.

(** C4 as stated fails: the id [Abc] is answered with status 500, which
    is not a status of the class 4xx. *)
Lemma malformed_id_is_not_client_error :
  ~ (400 <= StatusCode (finish (fst (GetHandler Sample.Unmarshal Sample.canonical
                                       map_to_list "GET" "Abc" newWriter Sample.disk)))
     < 500).
Proof.
  assert (StatusCode (finish (fst (GetHandler Sample.Unmarshal Sample.canonical
                                     map_to_list "GET" "Abc" newWriter Sample.disk)))
          = 500) as -> by reflexivity.
  lia.
Qed.

Lemma malformed_id_is_status_500_witness :
  StatusCode (finish (fst (GetHandler Sample.Unmarshal Sample.canonical map_to_list
                             "GET" "Abc" newWriter Sample.disk))) = 500 /\
  payload (finish (fst (GetHandler Sample.Unmarshal Sample.canonical map_to_list
                          "GET" "Abc" newWriter Sample.disk)))
  = "alphanumeric IDs only" +:+ newline /\
  StatusCode (finish (fst (UploadHandler Sample.Sprint Sample.canonical
                             "Abc" (mkBody "hello" false) newWriter Sample.disk))) = 500 /\
  payload (finish (fst (UploadHandler Sample.Sprint Sample.canonical
                          "Abc" (mkBody "hello" false) newWriter Sample.disk)))
  = "alphanumeric IDs only" +:+ newline.
Proof.
  apply (malformed_id_is_status_500 Sample.Sprint Sample.Unmarshal Sample.canonical
           map_to_list "GET" "Abc" (mkBody "hello" false) Sample.disk).
  reflexivity.
Defined.

(** C5 as stated fails: [hello] stored under [new] together with the
    metadata [X-Mime-Type: image/png], which [Store] has no parameter to
    receive, comes back from [Get] without metadata. *)
Lemma Store_keeps_no_metadata :
  fst (Store "new" "hello" Sample.empty_disk) = true /\
  fst (Get Sample.Unmarshal "new" (snd (Store "new" "hello" Sample.empty_disk)))
  <> (Some "hello", Some Sample.meta_png).
Proof. split; [reflexivity|]. vm_compute. intros [=]. Qed.

Lemma Store_then_Get_witness :
  fst (Get Sample.Unmarshal "abc" (snd (Store "abc" "bye" Sample.disk)))
  = (Some "bye", Sample.Unmarshal <$> sidecar Sample.disk "abc").
Proof.
  apply (Store_then_Get Sample.Unmarshal Sample.disk "abc" "bye").
  reflexivity.
Defined.

(** The record [gone.json] is on the disk and the blob [gone] is not;
    [tmp] is a directory. *)
Lemma Get_absent_without_content_witness :
  sidecar Sample.disk "gone" = Some Sample.record_png /\
  fst (Get Sample.Unmarshal "gone" Sample.disk) = (None, None) /\
  fst (Get Sample.Unmarshal "tmp" Sample.disk) = (None, None).
Proof.
  split; [reflexivity|]. split.
  - apply (Get_absent_without_content Sample.Unmarshal Sample.disk "gone").
    left. reflexivity.
  - apply (Get_absent_without_content Sample.Unmarshal Sample.disk "tmp").
    right. reflexivity.
Defined.



(** C7 as stated fails: the blob [abc] has the metadata
    [X-Mime-Type: image/png] and [Content-Type: text/plain]; when the walk
    over the map meets [X-Mime-Type] first, the response carries the
    content type [text/plain]. *)
Lemma Content_Type_may_be_overwritten :
  fst (Get Sample.Unmarshal "abc" Sample.disk) = (Some "hello", Some Sample.meta) /\
  Sample.meta !! "X-Mime-Type" = Some "image/png" /\
  Sample.backwards Sample.meta ≡ₚ map_to_list Sample.meta /\
  Header_Get Sample.canonical
    (headers (finish (fst (GetHandler Sample.Unmarshal Sample.canonical
                             Sample.backwards "GET" "abc" newWriter Sample.disk))))
    "Content-Type" <> Some "image/png".
Proof.
  split; [reflexivity|]. split; [reflexivity|]. split.
  - apply reverse_Permutation.
  - vm_compute. intros [=].
Qed.

Lemma X_Mime_Type_becomes_Content_Type_witness :
  Header_Get Sample.canonical
    (headers (finish (fst (GetHandler Sample.Unmarshal Sample.canonical
                             map_to_list "GET" "pic" newWriter Sample.disk))))
    "Content-Type" = Some "image/png".
Proof.
  apply (X_Mime_Type_becomes_Content_Type Sample.Unmarshal Sample.canonical
           map_to_list Sample.disk "pic" "PNG" "image/png" Sample.meta_png).
  - reflexivity.
  - reflexivity.
  - reflexivity.
  - reflexivity.
  - intros k [w Hk] Hne. unfold Sample.meta_png in Hk.
    apply lookup_singleton_Some in Hk as [<- _]. done.
Defined.

(** C8 as stated fails in its clause on routing.  With the groups
    [A = {n1}] and [B = {n2, n3}], a routing by key puts the home group of
    [x] first and that of [yy] first; the handler walks the one list
    [OrderedServers()] for both identifiers, so whatever that list is, the
    servers it asks for [x.png] and for [yy.png] cannot both follow the
    search path of their key. *)
Lemma download_order_takes_no_key :
  ~ exists servers : list BlobServer,
      snd (APIDownloadHandler Sample.canonical Sample.nobody servers
             "GET" "x.png" newWriter)
      = fetch "x" <$> orderedSearchPath Sample.index "x" Sample.registry /\
      snd (APIDownloadHandler Sample.canonical Sample.nobody servers
             "GET" "yy.png" newWriter)
      = fetch "yy" <$> orderedSearchPath Sample.index "yy" Sample.registry.
Proof.
  intros (servers & Hx & Hyy).
  assert (forall name, Forall (fun s => unsuccessful (Sample.nobody (fetch name s))) servers)
    as Hdead by (intros name; apply Forall_forall; intros s _; exact I).
  unfold APIDownloadHandler in Hx, Hyy.
  change (strip_extension "x.png") with "x" in Hx.
  change (strip_extension "yy.png") with "yy" in Hyy.
  rewrite (download_loop_exhausted _ _ _ _ _ _ (Hdead _)) in Hx.
  rewrite (download_loop_exhausted _ _ _ _ _ _ (Hdead _)) in Hyy.
  change (orderedSearchPath Sample.index "x" Sample.registry)
    with [Sample.n2; Sample.n3; Sample.n1] in Hx.
  change (orderedSearchPath Sample.index "yy" Sample.registry)
    with [Sample.n1; Sample.n2; Sample.n3] in Hyy.
  destruct servers as [|s servers]; [discriminate Hx|].
  simpl in Hx, Hyy.
  injection Hx as Hx _. injection Hyy as Hyy _.
  unfold blob_url in Hx, Hyy.
  apply app_inv_tail in Hx. apply app_inv_tail in Hyy.
  rewrite Hx in Hyy. discriminate Hyy.
Qed.

(** The listing of the sample directory: the two blobs and the directory,
    none of the three metadata records. *)
Example Existing_sample : fst (Existing Sample.disk) = ["abc"; "pic"; "tmp"].
Proof. reflexivity. Qed.

(** * Further properties of the sources *)

(** ** storage-api.go *)

Lemma files_after_Store (d : Disk) (id data : string) :
  files (snd (Store id data d))
  = if fst (Store id data d) then <[id := File data]> (files d) else files d.
Proof.
  unfold Store, bind, ioutil_WriteFile, ret.
  destruct (String.eqb id EmptyString || too_long id); [done|].
  by destruct (files d !! id) as [[x|]|].
Qed.

(** A write never gives the directory a name it cannot hold: when no entry
    has the empty name or a name longer than [NAME_MAX], none has after a
    [Store]. *)
Lemma Store_keeps_names (d : Disk) (id data : string) :
  (forall k, is_Some (files d !! k) -> k <> EmptyString /\ too_long k = false) ->
  forall k, is_Some (files (snd (Store id data d)) !! k) ->
            k <> EmptyString /\ too_long k = false.
Proof.
  intros Hd k. rewrite files_after_Store.
  destruct (fst (Store id data d)) eqn:Hok; [|apply Hd].
  destruct (decide (k = id)) as [->|Hne].
  - intros _. by apply Store_true_iff in Hok as (? & ? & _).
  - rewrite lookup_insert_ne by done. apply Hd.
Qed.

(** What [Get] returns depends on two entries of the directory only. *)
Lemma Get_depends_on_two_entries (unmarshal : string -> gmap string string)
    (d1 d2 : Disk) (id : string) :
  files d1 !! id = files d2 !! id ->
  files d1 !! (id +:+ ".json") = files d2 !! (id +:+ ".json") ->
  fst (Get unmarshal id d1) = fst (Get unmarshal id d2).
Proof.
  intros H1 H2. destruct (files d1 !! id) as [[x|]|] eqn:E.
  - rewrite (Get_found _ d1 id x E), (Get_found _ d2 id x) by congruence.
    unfold sidecar. by rewrite H2.
  - rewrite !Get_without_file; [done|right; congruence|by right].
  - rewrite !Get_without_file; [done|left; congruence|by left].
Qed.

Section MoreStorageFacts.

Variable json_Unmarshal : string -> gmap string string.


(** A write under one id leaves every other blob as it was: for two
    different ids of the alphabet of ids, what [Get] and [Exists] return
    for the one is unchanged by a [Store] under the other. *)
Theorem Store_leaves_other_blobs (d : Disk) (id id' data : string) :
  Regexp.MatchString id = true ->
  Regexp.MatchString id' = true ->
  id' <> id ->
  fst (Get json_Unmarshal id' (snd (Store id data d)))
  = fst (Get json_Unmarshal id' d) /\
  fst (Exists id' (snd (Store id data d))) = fst (Exists id' d).
Proof.
  intros Hvalid Hvalid' Hid.
  assert (id' +:+ ".json" <> id) as Hrec.
  { intros <-. pose proof (MatchString_contains "."%char _ eq_refl Hvalid) as H.
    by rewrite contains_app, orb_true_r in H. }
  assert (forall k, k <> id -> files (snd (Store id data d)) !! k = files d !! k) as Hk.
  { intros k Hne. rewrite files_after_Store.
    destruct (fst (Store id data d)); [|done]. by rewrite lookup_insert_ne. }
  split.
  - apply Get_depends_on_two_entries; by apply Hk.
  - rewrite !Exists_lookup. by rewrite Hk.
Qed.

(** The storage class has no call for metadata, but a write under the
    name [<id>.json] is one: the next [Get] of [id] returns the content as
    before and the decoding of what was written. *)
Theorem Store_of_record_sets_metadata (d : Disk) (id x text : string) :
  files d !! id = Some (File x) ->
  fst (Store (id +:+ ".json") text d) = true ->
  fst (Get json_Unmarshal id (snd (Store (id +:+ ".json") text d)))
  = (Some x, Some (json_Unmarshal text)).
Proof.
  intros Hx Hok. rewrite (Get_found _ _ _ x).
  - unfold sidecar. rewrite files_Store by done. by rewrite lookup_insert_eq.
  - rewrite files_Store by done. rewrite lookup_insert_ne; [done|].
    intros H. by apply (app_neq_self id ".json").
Qed.

(** [Get] returns content exactly for a regular file; [Exists] holds of
    whatever [Get] returns content for, and also of a directory, for which
    [Get] returns nothing. *)
Theorem Exists_weaker_than_Get (d : Disk) (id : string) :
  (forall x, fst (fst (Get json_Unmarshal id d)) = Some x <->
             files d !! id = Some (File x)) /\
  (is_Some (fst (fst (Get json_Unmarshal id d))) -> fst (Exists id d) = true) /\
  (files d !! id = Some Dir ->
   fst (Exists id d) = true /\ fst (Get json_Unmarshal id d) = (None, None)).
Proof.
  assert (forall x, fst (fst (Get json_Unmarshal id d)) = Some x <->
                    files d !! id = Some (File x)) as Hget.
  { intros x. destruct (files d !! id) as [[y|]|] eqn:E.
    - rewrite (Get_found _ _ _ y E). simpl. split; congruence.
    - rewrite Get_without_file by (by right). simpl. split; congruence.
    - rewrite Get_without_file by (by left). simpl. split; congruence. }
  split; [done|]. split.
  - intros [x Hx]. apply Hget in Hx. apply Exists_true_iff. left. by rewrite Hx.
  - intros HD. split.
    + apply Exists_true_iff. left. by rewrite HD.
    + apply Get_without_file. by right.
Qed.

(** The three reading calls change no file. *)
Lemma storage_reads_keep_files (d : Disk) (id : string) :
  files (snd (Get json_Unmarshal id d)) = files d /\
  files (snd (Exists id d)) = files d /\
  files (snd (Existing d)) = files d.
Proof.
  unfold Get, Exists, Existing, bind, os_Stat, ioutil_ReadFile, ioutil_ReadDir, ret.
  simpl. repeat split.
  - destruct (files d !! id) as [[x|]|] eqn:E; simpl;
      [| |destruct (too_long id); simpl]; rewrite ?E; simpl; done.
  - destruct (files d !! id); [done|]. by destruct (too_long id).
Qed.

(** After a successful write under an id of the alphabet of ids the
    listing holds what it held before and the id written. *)
Theorem Existing_after_Store (d : Disk) (id data name : string) :
  Regexp.MatchString id = true ->
  fst (Store id data d) = true ->
  (name ∈ fst (Existing (snd (Store id data d))) <->
   name ∈ fst (Existing d) \/ name = id).
Proof.
  intros Hid Hok. rewrite !elem_of_Existing, files_Store by done.
  pose proof (MatchString_not_json id Hid) as Hjson.
  destruct (decide (name = id)) as [->|Hne].
  - rewrite lookup_insert_eq. split; [by right|].
    intros _. split; [by eexists|done].
  - rewrite lookup_insert_ne by done. split; [by left|].
    by intros [H|?].
Qed.

End MoreStorageFacts.

Lemma Forall_List_filter {A} (P : A -> Prop) (f : A -> bool) (l : list A) :
  Forall P l -> Forall P (List.filter f l).
Proof.
  induction 1 as [|x l Hx _ IH]; simpl; [constructor|].
  destruct (f x); [by constructor|done].
Qed.

Lemma StronglySorted_List_filter {A} (R : relation A) (f : A -> bool) (l : list A) :
  StronglySorted R l -> StronglySorted R (List.filter f l).
Proof.
  induction 1 as [|x l _ IH Hx]; simpl; [constructor|].
  destruct (f x); [|done]. constructor; [done|]. by apply Forall_List_filter.
Qed.

(** The listing is in the order of the names: each name is at most every
    name after it. *)
Theorem Existing_sorted (d : Disk) : StronglySorted String.le (fst (Existing d)).
Proof.
  unfold Existing, bind, ioutil_ReadDir, ret. simpl.
  apply StronglySorted_List_filter, StronglySorted_merge_sort; apply _.
Qed.

(** ** The handlers of the blob-server, further *)

Section MoreNodeFacts.

Variable Sprint : string -> string.
Variable json_Unmarshal : string -> gmap string string.
Variable json_Marshal : list string -> string.
Variable canon : string -> string.
Variable range : gmap string string -> list (string * string).

(** The answer of [GetHandler] to a [GET] for a regular file. *)
Lemma GetHandler_GET_file (d : Disk) (id x : string) :
  Regexp.MatchString id = true ->
  files d !! id = Some (File x) ->
  StatusCode (finish (fst (GetHandler json_Unmarshal canon range "GET" id newWriter d)))
  = 200 /\
  payload (finish (fst (GetHandler json_Unmarshal canon range "GET" id newWriter d)))
  = x /\
  (sidecar d id = None ->
   headers (finish (fst (GetHandler json_Unmarshal canon range "GET" id newWriter d)))
   = ∅).
Proof.
  intros Hid Hx. unfold GetHandler. rewrite Hid. simpl. unfold bind.
  pose proof (Get_found json_Unmarshal d id x Hx) as HG.
  destruct (Get json_Unmarshal id d) as [got d']. simpl in HG. subst got.
  unfold ret, deferred. simpl.
  assert (forall res, wrote res = None -> body res = EmptyString ->
            StatusCode (finish (io_Copy res x)) = 200 /\
            payload (finish (io_Copy res x)) = x /\
            headers (finish (io_Copy res x)) = Header res) as Hcopy.
  { intros res Hw Hb. unfold io_Copy, finish, Write, WriteHeader.
    destruct x; simpl; rewrite Hw; simpl; rewrite ?Hb; done. }
  destruct (sidecar d id) as [text|]; simpl.
  - destruct (foldl_meta_header_keeps canon (range (json_Unmarshal text)) newWriter)
      as [Hw Hb].
    destruct (Hcopy _ Hw Hb) as (? & ? & ?). by repeat split.
  - destruct (Hcopy newWriter eq_refl eq_refl) as (? & ? & ?). by repeat split.
Qed.

(** A [GET] of a stored blob is answered 200 with exactly the bytes held,
    whatever its metadata, and with no header from the handler when the
    blob has no metadata record. *)
Theorem GET_returns_content (d : Disk) (id x : string) :
  Regexp.MatchString id = true ->
  files d !! id = Some (File x) ->
  StatusCode (finish (fst (GetHandler json_Unmarshal canon range "GET" id newWriter d)))
  = 200 /\
  payload (finish (fst (GetHandler json_Unmarshal canon range "GET" id newWriter d)))
  = x /\
  (sidecar d id = None ->
   headers (finish (fst (GetHandler json_Unmarshal canon range "GET" id newWriter d)))
   = ∅).
Proof. apply GetHandler_GET_file. Qed.

(** A [GET] of an id that is not held, or that names a directory, is
    answered 404 with the text of [http.NotFound]. *)
Theorem GET_of_missing_is_404 (d : Disk) (id : string) :
  Regexp.MatchString id = true ->
  files d !! id = None \/ files d !! id = Some Dir ->
  StatusCode (finish (fst (GetHandler json_Unmarshal canon range "GET" id newWriter d)))
  = 404 /\
  payload (finish (fst (GetHandler json_Unmarshal canon range "GET" id newWriter d)))
  = "404 page not found" +:+ newline.
Proof.
  intros Hid Hd. unfold GetHandler. rewrite Hid. simpl. unfold bind.
  pose proof (Get_without_file json_Unmarshal d id Hd) as HG.
  destruct (Get json_Unmarshal id d) as [got d']. simpl in HG. subst got.
  by split.
Qed.

(** The handler of [HEAD] asks the operating system one question, the
    [Stat] of the id, and reads no file; it answers without a body, 200
    when [Exists] holds and 404 when it does not, and it does not exactly
    when the directory has no entry of the name and the name is short
    enough for [Stat] to report that: an id too long to be a name is
    answered 200. *)
Theorem HEAD_only_stats (d : Disk) (id : string) :
  Regexp.MatchString id = true ->
  snd (GetHandler json_Unmarshal canon range "HEAD" id newWriter d)
  = logged (Stat id) d /\
  finish (fst (GetHandler json_Unmarshal canon range "HEAD" id newWriter d))
  = mkResponse (if fst (Exists id d) then 200 else 404)
               (<[canon "Connection" := "close"]> ∅) EmptyString /\
  (StatusCode (finish (fst (GetHandler json_Unmarshal canon range "HEAD" id newWriter d)))
   = 404 <-> files d !! id = None /\ too_long id = false).
Proof.
  intros Hid. unfold GetHandler. rewrite Hid. simpl.
  unfold Exists. unfold bind, os_Stat, ret. simpl.
  destruct (files d !! id) as [e|]; simpl.
  - repeat split; try done. by intros [? _].
  - destruct (too_long id); simpl; repeat split; try done. by intros [_ ?].
Qed.

(** Neither the handler of [GET] and [HEAD] nor the handler of the
    listing changes a file, whatever the method and the id. *)
Theorem read_requests_change_no_file (d : Disk) (Method id : string)
    (res : ResponseWriter) :
  files (snd (GetHandler json_Unmarshal canon range Method id res d)) = files d /\
  files (snd (ListHandler Sprint json_Marshal res d)) = files d.
Proof.
  destruct (storage_reads_keep_files json_Unmarshal d id) as (HG & HE & HL).
  split.
  - unfold GetHandler. destruct (Regexp.MatchString id); simpl; [|done].
    destruct (String.eqb Method "HEAD"); unfold bind.
    + destruct (Exists id d) as [found d']. done.
    + destruct (Get json_Unmarshal id d) as [[[data|] meta] d']; done.
  - unfold ListHandler, bind. by destruct (Existing d) as [l d'].
Qed.

End MoreNodeFacts.

(** A length printed in decimal has no byte [%]. *)
Lemma pretty_N_char_plain (x : N) : Ascii.eqb (pretty_N_char x) "%" = false.
Proof. unfold pretty_N_char. by repeat case_match. Qed.

Lemma pretty_N_go_plain (x : N) (s : string) :
  Strings.contains "%" s = false -> Strings.contains "%" (pretty_N_go x s) = false.
Proof.
  revert s. induction (N.lt_wf_0 x) as [x _ IH]. intros s Hs.
  destruct (decide (0 < x)%N) as [Hx|Hx].
  - rewrite pretty_N_go_step by done. apply IH.
    + apply N.div_lt; lia.
    + simpl. by rewrite pretty_N_char_plain, Hs.
  - assert (x = 0%N) as -> by lia. by rewrite pretty_N_go_0.
Qed.

Lemma pretty_nat_plain (n : nat) : Strings.contains "%" (pretty n) = false.
Proof.
  unfold pretty, pretty_nat, pretty, pretty_N.
  case_decide; [done|]. by apply pretty_N_go_plain.
Qed.

Section MoreUploadFacts.

Variable Sprint : string -> string.
Variable json_Unmarshal : string -> gmap string string.
Variable canon : string -> string.
Variable range : gmap string string -> list (string * string).

(** [UploadHandler] on an id that matches and a body read to its end. *)
Lemma UploadHandler_stores (d : Disk) (id c : string) (res : ResponseWriter) :
  Regexp.MatchString id = true ->
  UploadHandler Sprint canon id (mkBody c false) res d
  = (if fst (Store id c d)
     then Fprintf Sprint res (confirmation id (String.length c))
     else http_Error canon res "failed to write to storage" 500,
     snd (Store id c d)).
Proof.
  intros Hid. unfold UploadHandler. rewrite Hid. simpl. unfold bind.
  by destruct (Store id c d) as [[|] d'].
Qed.

(** An upload is answered 200 or 500, and an answer of 200 tells that the
    id matched, that the body was read to its end and that it is now the
    content of the file of the id. *)
Theorem Upload_status_tells_storage (d : Disk) (id : string) (reqBody : Body) :
  (StatusCode (finish (fst (UploadHandler Sprint canon id reqBody newWriter d))) = 200 \/
   StatusCode (finish (fst (UploadHandler Sprint canon id reqBody newWriter d))) = 500) /\
  (StatusCode (finish (fst (UploadHandler Sprint canon id reqBody newWriter d))) = 200 ->
   Regexp.MatchString id = true /\ broken reqBody = false /\
   files (snd (UploadHandler Sprint canon id reqBody newWriter d))
   = <[id := File (contents reqBody)]> (files d)).
Proof.
  destruct (Regexp.MatchString id) eqn:Hid.
  - destruct reqBody as [c [|]].
    + unfold UploadHandler. rewrite Hid. simpl. split; [by right|done].
    + rewrite UploadHandler_stores by done. simpl.
      rewrite files_after_Store.
      destruct (fst (Store id c d)); simpl; (split; [auto|done]).
  - unfold UploadHandler. rewrite Hid. simpl. split; [by right|done].
Qed.

(** For an id that matches, a body whose read broke off is answered with
    [failed to read body] before the storage class is called, and a write
    the storage class refuses with [failed to write to storage]. *)
Theorem Upload_names_its_failure (d : Disk) (id : string) (reqBody : Body) :
  Regexp.MatchString id = true ->
  (broken reqBody = true ->
   UploadHandler Sprint canon id reqBody newWriter d
   = (http_Error canon newWriter "failed to read body" 500, d)) /\
  (broken reqBody = false -> files d !! id = Some Dir ->
   payload (finish (fst (UploadHandler Sprint canon id reqBody newWriter d)))
   = "failed to write to storage" +:+ newline).
Proof.
  intros Hid. destruct reqBody as [c b]. simpl. split.
  - intros ->. unfold UploadHandler. rewrite Hid. by simpl.
  - intros -> HD. rewrite UploadHandler_stores by done.
    assert (fst (Store id c d) = false) as ->; [|done].
    destruct (fst (Store id c d)) eqn:E; [|done].
    apply Store_true_iff in E as (_ & _ & E). congruence.
Qed.

(** An answer of 200 to an upload: the id matched, the body was read to
    its end, the write succeeded, and the disk is the one [Store] left. *)
Lemma UploadHandler_200 (d : Disk) (id : string) (reqBody : Body) :
  StatusCode (finish (fst (UploadHandler Sprint canon id reqBody newWriter d))) = 200 ->
  Regexp.MatchString id = true /\ broken reqBody = false /\
  fst (Store id (contents reqBody) d) = true /\
  snd (UploadHandler Sprint canon id reqBody newWriter d)
  = snd (Store id (contents reqBody) d).
Proof.
  destruct (Regexp.MatchString id) eqn:Hid.
  - destruct reqBody as [c [|]].
    + unfold UploadHandler. rewrite Hid. by simpl.
    + rewrite UploadHandler_stores by done. simpl.
      by destruct (fst (Store id c d)).
  - unfold UploadHandler. rewrite Hid. by simpl.
Qed.

(** An upload whose write succeeds is answered 200 with the confirmation
    that names the id and the number of bytes of the body. *)
Theorem Upload_confirms_size (d : Disk) (id c : string) :
  (forall format, Strings.contains "%" format = false -> Sprint format = format) ->
  Regexp.MatchString id = true ->
  fst (Store id c d) = true ->
  finish (fst (UploadHandler Sprint canon id (mkBody c false) newWriter d))
  = mkResponse 200 ∅ (confirmation id (String.length c)).
Proof.
  intros Hplain Hid Hok. rewrite UploadHandler_stores by done.
  rewrite Hok. simpl. unfold Fprintf.
  rewrite Hplain; [done|].
  apply confirmation_plain; [done|apply pretty_nat_plain].
Qed.

(** After an upload answered 200, a [GET] of the id is answered 200 with
    the bytes of the body uploaded, and a [HEAD] of it 200. *)
Theorem Upload_then_GET (d : Disk) (id : string) (reqBody : Body) :
  StatusCode (finish (fst (UploadHandler Sprint canon id reqBody newWriter d))) = 200 ->
  StatusCode (finish (fst (GetHandler json_Unmarshal canon range "GET" id newWriter
    (snd (UploadHandler Sprint canon id reqBody newWriter d))))) = 200 /\
  payload (finish (fst (GetHandler json_Unmarshal canon range "GET" id newWriter
    (snd (UploadHandler Sprint canon id reqBody newWriter d))))) = contents reqBody /\
  StatusCode (finish (fst (GetHandler json_Unmarshal canon range "HEAD" id newWriter
    (snd (UploadHandler Sprint canon id reqBody newWriter d))))) = 200.
Proof.
  intros (Hid & _ & Hok & ->)%UploadHandler_200.
  assert (files (snd (Store id (contents reqBody) d)) !! id
          = Some (File (contents reqBody))) as Hc.
  { rewrite files_Store by done. apply lookup_insert_eq. }
  destruct (GetHandler_GET_file json_Unmarshal canon range _ id _ Hid Hc)
    as (H200 & Hpay & _).
  split; [done|]. split; [done|].
  unfold GetHandler. rewrite Hid. simpl. unfold Exists.
  unfold bind, os_Stat, ret. simpl. by rewrite Hc.
Qed.

(** After an upload answered 200 the id is in the listing, and every name
    listed before still is. *)
Theorem Upload_then_listed (d : Disk) (id : string) (reqBody : Body) :
  StatusCode (finish (fst (UploadHandler Sprint canon id reqBody newWriter d))) = 200 ->
  id ∈ fst (Existing (snd (UploadHandler Sprint canon id reqBody newWriter d))) /\
  (forall name, name ∈ fst (Existing d) ->
     name ∈ fst (Existing (snd (UploadHandler Sprint canon id reqBody newWriter d)))).
Proof.
  intros (Hid & _ & Hok & ->)%UploadHandler_200.
  split.
  - apply elem_of_Existing. rewrite files_Store by done.
    rewrite lookup_insert_eq. split; [by eexists|by apply MatchString_not_json].
  - intros name [Hheld Hs]%elem_of_Existing. apply elem_of_Existing.
    rewrite files_Store by done. split; [|done].
    destruct (decide (name = id)) as [->|Hne].
    + rewrite lookup_insert_eq. by eexists.
    + by rewrite lookup_insert_ne.
Qed.

End MoreUploadFacts.

(** *** Metadata as headers *)

Section MoreHeaderFacts.

Variable json_Unmarshal : string -> gmap string string.
Variable canon : string -> string.
Variable range : gmap string string -> list (string * string).

Lemma meta_header_sets (res : ResponseWriter) (k w : string) :
  Header_Get canon (Header (meta_header canon res (k, w))) k = Some w.
Proof.
  unfold meta_header, Header_Get, Header_Set.
  destruct (String.eqb k "X-Mime-Type") eqn:E; simpl.
  - apply String.eqb_eq in E as ->.
    destruct (decide (canon "Content-Type" = canon "X-Mime-Type")) as [->|Hne].
    + apply lookup_insert_eq.
    + rewrite lookup_insert_ne by done. apply lookup_insert_eq.
  - apply lookup_insert_eq.
Qed.

Lemma meta_header_frame (res : ResponseWriter) (k' w' k : string) :
  canon k' <> canon k ->
  (k' = "X-Mime-Type" -> canon "Content-Type" <> canon k) ->
  Header_Get canon (Header (meta_header canon res (k', w'))) k
  = Header_Get canon (Header res) k.
Proof.
  intros Hk Hct. unfold meta_header, Header_Get, Header_Set.
  destruct (String.eqb k' "X-Mime-Type") eqn:E; simpl.
  - apply String.eqb_eq in E. rewrite lookup_insert_ne by auto.
    by rewrite lookup_insert_ne.
  - by rewrite lookup_insert_ne.
Qed.

Lemma foldl_meta_header_kept_key (k w : string) (l : list (string * string))
    (res : ResponseWriter) :
  (forall k' w', (k', w') ∈ l ->
     (k' = k /\ w' = w) \/
     (canon k' <> canon k /\ (k' = "X-Mime-Type" -> canon "Content-Type" <> canon k))) ->
  Header_Get canon (Header res) k = Some w ->
  Header_Get canon (Header (foldl (meta_header canon) res l)) k = Some w.
Proof.
  revert res. induction l as [|[k' w'] l IH]; intros res Hl Hres; [done|]. simpl.
  apply IH.
  - intros k2 w2 H. apply Hl. by right.
  - assert ((k', w') ∈ (k', w') :: l) as Hin by (by left).
    destruct (Hl k' w' Hin) as [[-> ->]|[? ?]].
    + apply meta_header_sets.
    + etrans; [|exact Hres]. by apply (meta_header_frame res k' w' k).
Qed.

Lemma foldl_meta_header_set_key (k w : string) (l : list (string * string))
    (res : ResponseWriter) :
  (k, w) ∈ l ->
  (forall k' w', (k', w') ∈ l ->
     (k' = k /\ w' = w) \/
     (canon k' <> canon k /\ (k' = "X-Mime-Type" -> canon "Content-Type" <> canon k))) ->
  Header_Get canon (Header (foldl (meta_header canon) res l)) k = Some w.
Proof.
  revert res. induction l as [|[k' w'] l IH]; intros res Hin Hl.
  - by apply elem_of_nil in Hin.
  - simpl. apply elem_of_cons in Hin as [[= <- <-]|Hin].
    + apply foldl_meta_header_kept_key.
      * intros k2 w2 H. apply Hl. by right.
      * apply meta_header_sets.
    + apply IH; [done|]. intros k2 w2 H. apply Hl. by right.
Qed.

(** Every entry of the metadata of a blob becomes a header of the response
    to a [GET], under its own key, in whatever order the metadata are
    walked, provided no other entry has a key of the same canonical form
    and, when [X-Mime-Type] is another entry, the key is not that of
    [Content-Type]. *)
Theorem metadata_entry_becomes_header (d : Disk) (id data k w : string)
    (m : gmap string string) :
  Regexp.MatchString id = true ->
  fst (Get json_Unmarshal id d) = (Some data, Some m) ->
  m !! k = Some w ->
  range m ≡ₚ map_to_list m ->
  (forall k', is_Some (m !! k') -> k' <> k -> canon k' <> canon k) ->
  (k <> "X-Mime-Type" -> is_Some (m !! "X-Mime-Type") ->
   canon "Content-Type" <> canon k) ->
  Header_Get canon
    (headers (finish (fst (GetHandler json_Unmarshal canon range "GET" id newWriter d))))
    k = Some w.
Proof.
  intros Hid Hget Hk Hperm Hother Hmime.
  unfold GetHandler. rewrite Hid. simpl. unfold bind.
  destruct (Get json_Unmarshal id d) as [got d'] eqn:HG. simpl in Hget. subst got.
  unfold ret, deferred. simpl.
  set (res := foldl (meta_header canon) newWriter (range m)).
  assert (Header_Get canon (Header res) k = Some w) as Hres.
  { apply foldl_meta_header_set_key.
    - rewrite Hperm. by apply elem_of_map_to_list.
    - intros k' w'. rewrite Hperm. intros Hkw%elem_of_map_to_list.
      destruct (decide (k' = k)) as [->|Hne].
      + left. split; [done|congruence].
      + right. split; [apply Hother; [by eexists|done]|].
        intros ->. apply Hmime; [done|by eexists]. }
  destruct (foldl_meta_header_keeps canon (range m) newWriter) as [Hw _].
  fold res in Hw. simpl in Hw.
  unfold io_Copy, finish, Write, WriteHeader.
  destruct data; simpl; rewrite Hw; simpl; done.
Qed.

End MoreHeaderFacts.

(** ** The handlers of the API server, further *)

Lemma get_contains (i : nat) (s : string) (c : ascii) :
  String.get i s = Some c -> Strings.contains c s = true.
Proof.
  revert i. induction s as [|x s IH]; intros [|i]; simpl; try done.
  - intros [= ->]. by rewrite Ascii.eqb_refl.
  - intros H. rewrite (IH i H). apply orb_true_r.
Qed.

Lemma Ext_loop_without_dot (path : string) (n : nat) :
  Strings.contains "." path = false -> Filepath.Ext_loop path n = EmptyString.
Proof.
  intros Hdot. induction n as [|i IH]; simpl; [done|].
  destruct (String.get i path) as [c|] eqn:E; [|done].
  destruct (Filepath.IsPathSeparator c); [done|].
  destruct (Ascii.eqb_spec c ".") as [->|]; [|done].
  apply get_contains in E. congruence.
Qed.

(** An identifier of the alphabet of ids has no extension: the download
    handler asks the servers for the identifier as it was given. *)
Theorem strip_extension_of_id (id : string) :
  Regexp.MatchString id = true -> strip_extension id = id.
Proof.
  intros Hid. unfold strip_extension, Filepath.Ext.
  rewrite Ext_loop_without_dot by (by apply MatchString_contains).
  simpl. rewrite Nat.sub_0_r. apply substring_all.
Qed.



Section MoreAPIFacts.

Variable Sprint : string -> string.
Variable canon : string -> string.
Variable sha1_Sum : string -> string.
Variable Do : Outbound -> outcome.
Variable OrderedServers : list BlobServer.



Lemma download_loop_status (Method name : string) (servers : list BlobServer)
    (r : ResponseWriter) :
  fst (download_loop canon Do servers Method name newWriter) = Some r ->
  StatusCode (finish r) = 200.
Proof.
  induction servers as [|s servers IH]; simpl; [done|].
  assert (fst (let (r', log) := download_loop canon Do servers Method name newWriter in
               (r', mkOutbound "GET" (blob_url s name) EmptyString :: log)) = Some r ->
          StatusCode (finish r) = 200) as Hnext.
  { by destruct (download_loop canon Do servers Method name newWriter). }
  destruct (Do _) as [|code b]; [done|].
  destruct (code =? 200)%nat; simpl; [|done].
  destruct (String.eqb Method "HEAD"); simpl; intros [= <-]; [done|].
  by rewrite finish_io_Copy.
Qed.

(** The API server answers a download with 200 or 404 and an upload with
    200 or 500, whatever the servers do: no status of a blob-server is
    passed on. *)
Theorem API_status_codes (Method id : string) (reqBody : Body) :
  (StatusCode (finish (fst (APIDownloadHandler canon Do OrderedServers Method id
                              newWriter))) = 200 \/
   StatusCode (finish (fst (APIDownloadHandler canon Do OrderedServers Method id
                              newWriter))) = 404) /\
  (StatusCode (finish (fst (APIUploadHandler Sprint sha1_Sum Do OrderedServers reqBody
                              newWriter))) = 200 \/
   StatusCode (finish (fst (APIUploadHandler Sprint sha1_Sum Do OrderedServers reqBody
                              newWriter))) = 500).
Proof.
  split.
  - unfold APIDownloadHandler.
    pose proof (download_loop_status Method (strip_extension id) OrderedServers) as H.
    destruct (download_loop canon Do OrderedServers Method (strip_extension id) newWriter)
      as [[r|] log]; simpl in *; [left; by apply H|by right].
  - unfold APIUploadHandler. simpl.
    assert (forall servers r,
              fst (upload_loop Sprint Do servers (contents reqBody)
                     (sha1_Sum (contents reqBody)) newWriter) = Some r ->
              StatusCode (finish r) = 200) as H.
    { induction servers as [|s servers IH]; intros r; simpl; [done|].
      pose proof (IH r) as IHr.
      destruct (upload_loop Sprint Do servers (contents reqBody)
                  (sha1_Sum (contents reqBody)) newWriter) as [r' log].
      destruct (Do _) as [|code b]; [done|]. simpl. by intros [= <-]. }
    specialize (H OrderedServers).
    destruct (upload_loop Sprint Do OrderedServers (contents reqBody)
                (sha1_Sum (contents reqBody)) newWriter) as [[r|] log];
      simpl in *; [left; by apply H|by right].
Qed.

Lemma download_loop_any_method (M1 M2 name : string) (servers : list BlobServer) :
  snd (download_loop canon Do servers M1 name newWriter)
  = snd (download_loop canon Do servers M2 name newWriter) /\
  (is_Some (fst (download_loop canon Do servers M1 name newWriter)) <->
   is_Some (fst (download_loop canon Do servers M2 name newWriter))).
Proof.
  induction servers as [|s servers [IHlog IHres]]; simpl; [done|].
  destruct (download_loop canon Do servers M1 name newWriter) as [r1 log1].
  destruct (download_loop canon Do servers M2 name newWriter) as [r2 log2].
  simpl in *. subst log2.
  destruct (Do _) as [|code b]; [done|].
  destruct (code =? 200)%nat; simpl; [|done].
  destruct (String.eqb M1 "HEAD"), (String.eqb M2 "HEAD"); simpl;
    (split; [done|split; intros _; by eexists]).
Qed.

(** Whatever the method of the caller, the download handler sends the
    servers the same [GET] requests and answers with the same status: a
    [HEAD] is answered 200 exactly when a [GET] is. *)
Theorem HEAD_asks_like_GET (M1 M2 id : string) :
  snd (APIDownloadHandler canon Do OrderedServers M1 id newWriter)
  = snd (APIDownloadHandler canon Do OrderedServers M2 id newWriter) /\
  StatusCode (finish (fst (APIDownloadHandler canon Do OrderedServers M1 id newWriter)))
  = StatusCode (finish (fst (APIDownloadHandler canon Do OrderedServers M2 id newWriter))).
Proof.
  unfold APIDownloadHandler.
  destruct (download_loop_any_method M1 M2 (strip_extension id) OrderedServers)
    as [Hlog Hres].
  pose proof (download_loop_status M1 (strip_extension id) OrderedServers) as H1.
  pose proof (download_loop_status M2 (strip_extension id) OrderedServers) as H2.
  destruct (download_loop canon Do OrderedServers M1 (strip_extension id) newWriter)
    as [[r1|] log1];
  destruct (download_loop canon Do OrderedServers M2 (strip_extension id) newWriter)
    as [[r2|] log2]; simpl in *; split; try done.
  - by rewrite H1, H2.
  - destruct Hres as [Hres _]. by destruct Hres.
  - destruct Hres as [_ Hres]. by destruct Hres.
Qed.

(** The handlers that read no request: the two fall-back handlers answer
    404 with their text, the status set before the text is written being
    the one that counts, and the health handler answers 200. *)
Theorem fallback_handlers_answer :
  (forall format, Strings.contains "%" format = false -> Sprint format = format) ->
  finish (MissingHandler Sprint newWriter)
  = mkResponse 404 ∅ "404 - content is not hosted here." /\
  finish (APIMissingHandler Sprint newWriter)
  = mkResponse 404 ∅ "Invalid method or location." /\
  finish (HealthHandler Sprint newWriter) = mkResponse 200 ∅ "alive".
Proof.
  intros Hplain. unfold MissingHandler, APIMissingHandler, HealthHandler, Fprintf.
  rewrite !Hplain by reflexivity. done.
Qed.

End MoreAPIFacts.

(** ** The further properties at concrete inputs *)


Lemma Store_leaves_other_blobs_witness :
  fst (Get Sample.Unmarshal "pic" (snd (Store "abc" "bye" Sample.disk)))
  = fst (Get Sample.Unmarshal "pic" Sample.disk) /\
  fst (Exists "pic" (snd (Store "abc" "bye" Sample.disk)))
  = fst (Exists "pic" Sample.disk).
Proof.
  apply (Store_leaves_other_blobs Sample.Unmarshal Sample.disk "abc" "pic" "bye").
  - reflexivity.
  - reflexivity.
  - intros [=].
Defined.

Lemma Store_of_record_sets_metadata_witness :
  fst (Get Sample.Unmarshal "abc"
         (snd (Store ("abc" +:+ ".json") Sample.record_png Sample.disk)))
  = (Some "hello", Some (Sample.Unmarshal Sample.record_png)).
Proof.
  apply (Store_of_record_sets_metadata Sample.Unmarshal Sample.disk
           "abc" "hello" Sample.record_png).
  - reflexivity.
  - reflexivity.
Defined.

Lemma Existing_after_Store_witness :
  "new" ∈ fst (Existing (snd (Store "new" "hello" Sample.disk))) <->
  "new" ∈ fst (Existing Sample.disk) \/ "new" = "new".
Proof.
  apply (Existing_after_Store Sample.disk "new" "hello" "new").
  - reflexivity.
  - reflexivity.
Defined.

Lemma GET_returns_content_witness :
  StatusCode (finish (fst (GetHandler Sample.Unmarshal Sample.canonical map_to_list
                             "GET" "pic" newWriter Sample.disk))) = 200 /\
  payload (finish (fst (GetHandler Sample.Unmarshal Sample.canonical map_to_list
                          "GET" "pic" newWriter Sample.disk))) = "PNG" /\
  (sidecar Sample.disk "pic" = None ->
   headers (finish (fst (GetHandler Sample.Unmarshal Sample.canonical map_to_list
                           "GET" "pic" newWriter Sample.disk))) = ∅).
Proof.
  apply (GET_returns_content Sample.Unmarshal Sample.canonical map_to_list
           Sample.disk "pic" "PNG").
  - reflexivity.
  - reflexivity.
Defined.

Lemma GET_of_missing_is_404_witness :
  StatusCode (finish (fst (GetHandler Sample.Unmarshal Sample.canonical map_to_list
                             "GET" "gone" newWriter Sample.disk))) = 404 /\
  payload (finish (fst (GetHandler Sample.Unmarshal Sample.canonical map_to_list
                          "GET" "gone" newWriter Sample.disk)))
  = "404 page not found" +:+ newline.
Proof.
  apply (GET_of_missing_is_404 Sample.Unmarshal Sample.canonical map_to_list
           Sample.disk "gone").
  - reflexivity.
  - left. reflexivity.
Defined.

Lemma HEAD_only_stats_witness :
  snd (GetHandler Sample.Unmarshal Sample.canonical map_to_list
         "HEAD" Sample.long_id newWriter Sample.disk)
  = logged (Stat Sample.long_id) Sample.disk /\
  finish (fst (GetHandler Sample.Unmarshal Sample.canonical map_to_list
                 "HEAD" Sample.long_id newWriter Sample.disk))
  = mkResponse (if fst (Exists Sample.long_id Sample.disk) then 200 else 404)
               (<[Sample.canonical "Connection" := "close"]> ∅) EmptyString /\
  (StatusCode (finish (fst (GetHandler Sample.Unmarshal Sample.canonical map_to_list
                              "HEAD" Sample.long_id newWriter Sample.disk)))
   = 404 <-> files Sample.disk !! Sample.long_id = None /\
             too_long Sample.long_id = false).
Proof.
  apply (HEAD_only_stats Sample.Unmarshal Sample.canonical map_to_list
           Sample.disk Sample.long_id).
  by vm_compute.
Defined.

Lemma Upload_names_its_failure_witness :
  UploadHandler Sample.Sprint Sample.canonical "abc" (mkBody "hel" true)
    newWriter Sample.disk
  = (http_Error Sample.canonical newWriter "failed to read body" 500, Sample.disk) /\
  payload (finish (fst (UploadHandler Sample.Sprint Sample.canonical "tmp"
                          (mkBody "hello" false) newWriter Sample.disk)))
  = "failed to write to storage" +:+ newline.
Proof.
  split.
  - apply (proj1 (Upload_names_its_failure Sample.Sprint Sample.canonical
                    Sample.disk "abc" (mkBody "hel" true) eq_refl)).
    reflexivity.
  - apply (proj2 (Upload_names_its_failure Sample.Sprint Sample.canonical
                    Sample.disk "tmp" (mkBody "hello" false) eq_refl)).
    + reflexivity.
    + reflexivity.
Defined.

Lemma Upload_confirms_size_witness :
  finish (fst (UploadHandler Sample.Sprint Sample.canonical "abc"
                 (mkBody "hello" false) newWriter Sample.disk))
  = mkResponse 200 ∅ (confirmation "abc" 5).
Proof.
  apply (Upload_confirms_size Sample.Sprint Sample.canonical Sample.disk "abc" "hello").
  - intros format _. reflexivity.
  - reflexivity.
  - reflexivity.
Defined.

Lemma Upload_then_GET_witness :
  StatusCode (finish (fst (GetHandler Sample.Unmarshal Sample.canonical map_to_list
    "GET" "new" newWriter
    (snd (UploadHandler Sample.Sprint Sample.canonical "new" (mkBody "hello" false)
            newWriter Sample.disk))))) = 200 /\
  payload (finish (fst (GetHandler Sample.Unmarshal Sample.canonical map_to_list
    "GET" "new" newWriter
    (snd (UploadHandler Sample.Sprint Sample.canonical "new" (mkBody "hello" false)
            newWriter Sample.disk))))) = "hello" /\
  StatusCode (finish (fst (GetHandler Sample.Unmarshal Sample.canonical map_to_list
    "HEAD" "new" newWriter
    (snd (UploadHandler Sample.Sprint Sample.canonical "new" (mkBody "hello" false)
            newWriter Sample.disk))))) = 200.
Proof.
  apply (Upload_then_GET Sample.Sprint Sample.Unmarshal Sample.canonical map_to_list
           Sample.disk "new" (mkBody "hello" false)).
  reflexivity.
Defined.

Lemma metadata_entry_becomes_header_witness :
  Header_Get Sample.canonical
    (headers (finish (fst (GetHandler Sample.Unmarshal Sample.canonical
                             map_to_list "GET" "pic" newWriter Sample.disk))))
    "X-Mime-Type" = Some "image/png".
Proof.
  apply (metadata_entry_becomes_header Sample.Unmarshal Sample.canonical
           map_to_list Sample.disk "pic" "PNG" "X-Mime-Type" "image/png"
           Sample.meta_png).
  - reflexivity.
  - reflexivity.
  - reflexivity.
  - reflexivity.
  - intros k [w Hk] Hne. unfold Sample.meta_png in Hk.
    apply lookup_singleton_Some in Hk as [<- _]. done.
  - done.
Defined.

Lemma strip_extension_of_id_witness : strip_extension "abc123" = "abc123".
Proof. apply (strip_extension_of_id "abc123"). reflexivity. Defined.


Lemma fallback_handlers_answer_witness :
  finish (MissingHandler Sample.Sprint newWriter)
  = mkResponse 404 ∅ "404 - content is not hosted here." /\
  finish (APIMissingHandler Sample.Sprint newWriter)
  = mkResponse 404 ∅ "Invalid method or location." /\
  finish (HealthHandler Sample.Sprint newWriter) = mkResponse 200 ∅ "alive".
Proof.
  apply (fallback_handlers_answer Sample.Sprint).
  intros format _. reflexivity.
Defined.

(** ** Requests to one blob-server, one after the other *)

Section MoreComposedFacts.

Variable Sprint : string -> string.
Variable json_Unmarshal : string -> gmap string string.
Variable canon : string -> string.
Variable range : gmap string string -> list (string * string).

(** [HEAD] and [GET] of an id are answered with the same status for a
    regular file (200) and for an id the directory does not hold (404);
    they differ for a directory and for an id too long to be a name, which
    [HEAD] answers 200 and [GET] 404. *)
Theorem HEAD_agrees_with_GET_on_files (d : Disk) (id : string) :
  Regexp.MatchString id = true ->
  (forall x, files d !! id = Some (File x) ->
   StatusCode (finish (fst (GetHandler json_Unmarshal canon range "HEAD" id newWriter d)))
   = 200 /\
   StatusCode (finish (fst (GetHandler json_Unmarshal canon range "GET" id newWriter d)))
   = 200) /\
  (files d !! id = None -> too_long id = false ->
   StatusCode (finish (fst (GetHandler json_Unmarshal canon range "HEAD" id newWriter d)))
   = 404 /\
   StatusCode (finish (fst (GetHandler json_Unmarshal canon range "GET" id newWriter d)))
   = 404) /\
  (files d !! id = Some Dir \/ (files d !! id = None /\ too_long id = true) ->
   StatusCode (finish (fst (GetHandler json_Unmarshal canon range "HEAD" id newWriter d)))
   = 200 /\
   StatusCode (finish (fst (GetHandler json_Unmarshal canon range "GET" id newWriter d)))
   = 404).
Proof.
  intros Hid.
  assert (StatusCode (finish (fst (GetHandler json_Unmarshal canon range "HEAD" id
                                     newWriter d)))
          = if fst (Exists id d) then 200 else 404) as Hhead.
  { unfold GetHandler. rewrite Hid. simpl. unfold bind.
    destruct (Exists id d) as [[|] d']; done. }
  assert (files d !! id = None \/ files d !! id = Some Dir ->
          StatusCode (finish (fst (GetHandler json_Unmarshal canon range "GET" id
                                     newWriter d))) = 404) as Hmiss.
  { intros Hcase. unfold GetHandler. rewrite Hid. simpl. unfold bind.
    pose proof (Get_without_file json_Unmarshal d id Hcase) as HG.
    destruct (Get json_Unmarshal id d) as [got d']. simpl in HG. by subst got. }
  rewrite Hhead, Exists_lookup. split; [|split].
  - intros x Hx. rewrite Hx. split; [done|].
    by destruct (GetHandler_GET_file json_Unmarshal canon range d id x Hid Hx) as [-> _].
  - intros Hn Hlen. rewrite Hn, Hlen. split; [done|]. apply Hmiss. by left.
  - intros [HD|[Hn Hlen]].
    + rewrite HD. split; [done|]. apply Hmiss. by right.
    + rewrite Hn, Hlen. split; [done|]. apply Hmiss. by left.
Qed.

End MoreComposedFacts.

Lemma Upload_then_listed_witness :
  "new" ∈ fst (Existing (snd (UploadHandler Sample.Sprint Sample.canonical "new"
                                (mkBody "hello" false) newWriter Sample.disk))) /\
  (forall name, name ∈ fst (Existing Sample.disk) ->
     name ∈ fst (Existing (snd (UploadHandler Sample.Sprint Sample.canonical "new"
                                  (mkBody "hello" false) newWriter Sample.disk)))).
Proof.
  apply (Upload_then_listed Sample.Sprint Sample.canonical Sample.disk "new"
           (mkBody "hello" false)).
  reflexivity.
Defined.

(** [tmp] is a directory of the sample: its [HEAD] is answered 200, its
    [GET] 404. *)
Lemma HEAD_agrees_with_GET_on_files_witness :
  StatusCode (finish (fst (GetHandler Sample.Unmarshal Sample.canonical map_to_list
                             "HEAD" "tmp" newWriter Sample.disk))) = 200 /\
  StatusCode (finish (fst (GetHandler Sample.Unmarshal Sample.canonical map_to_list
                             "GET" "tmp" newWriter Sample.disk))) = 404.
Proof.
  apply (proj2 (proj2 (HEAD_agrees_with_GET_on_files Sample.Unmarshal Sample.canonical
                         map_to_list Sample.disk "tmp" eq_refl))).
  left. reflexivity.
Defined.
